(** * Home Assistant MQTT plugin (lib/homeassistant.py): model and properties

    A shallow embedding of [homeassistantClassPlugin]: the command handlers
    that write the shared configuration store, the discovery and state
    publishers, the connection callbacks and the poll hook.

    Conventions.
    - A Python [str] is a Rocq [string], read as its UTF-8 bytes.
    - Python values held by the two shared stores are the dynamic type
      [value]; a float is an IEEE-754 binary64 value of [spec_float].
    - A raised exception is the [Raise] case of [result].
    - The MQTT client is its call log: every [publish] call is appended to
      [outbox] together with its outcome, every [subscribe] call to
      [subscriptions].  Logging calls have no model. *)

From Stdlib Require Import ZArith Ascii String List Floats.SpecFloat.
From stdpp Require Import base gmap strings list fin_maps.
Import ListNotations.

Local Open Scope string_scope.
Local Open Scope Z_scope.

(** ** Exceptions *)

Inductive exn : Type :=
| ValueError
| TypeError
| OverflowError
| UnicodeDecodeError.

Inductive result (A : Type) : Type :=
| Ok (a : A)
| Raise (e : exn).
Arguments Ok {A} a.
Arguments Raise {A} e.

Definition rbind {A B : Type} (r : result A) (k : A -> result B) : result B :=
  match r with
  | Ok a => k a
  | Raise e => Raise e
  end.

Notation "x <<- r ;; k" := (rbind r (fun x => k))
  (at level 100, r at next level, right associativity, only parsing).

(** ** Strings: [str.upper], [str.lower], [in], [split] *)

Module PyStr.

Definition is_lower (c : ascii) : bool :=
  (97 <=? N_of_ascii c)%N && (N_of_ascii c <=? 122)%N.

Definition is_upper (c : ascii) : bool :=
  (65 <=? N_of_ascii c)%N && (N_of_ascii c <=? 90)%N.

Definition to_upper (c : ascii) : ascii :=
  if is_lower c then ascii_of_N (N_of_ascii c - 32) else c.

Definition to_lower (c : ascii) : ascii :=
  if is_upper c then ascii_of_N (N_of_ascii c + 32) else c.

(** [s.upper()] and [s.lower()] on the UTF-8 bytes: only a-z / A-Z move.
    Python also maps some non-ASCII characters to ASCII letters (long s to
    S, dotless i to I, the Kelvin sign to k, ligatures and a few letters
    that expand to an ASCII letter plus a mark).  None of them can produce
    a literal this module compares a case-mapped payload with: "ON",
    "TRUE" and "1" hold no S and no I, and "manual", "schedule", "off",
    "true", "on", "1" and "enabled" hold no k. *)
Fixpoint upper (s : string) : string :=
  match s with
  | EmptyString => EmptyString
  | String c s' => String (to_upper c) (upper s')
  end.

Fixpoint lower (s : string) : string :=
  match s with
  | EmptyString => EmptyString
  | String c s' => String (to_lower c) (lower s')
  end.

(** [x in l] for a list of strings. *)
Fixpoint mem (x : string) (l : list string) : bool :=
  match l with
  | [] => false
  | y :: l' => if String.eqb x y then true else mem x l'
  end.

Definition colon : ascii := ":"%char.

(** [":" in s] *)
Fixpoint has_colon (s : string) : bool :=
  match s with
  | EmptyString => false
  | String c s' => if Ascii.eqb c colon then true else has_colon s'
  end.

(** [s.split(":", 1)] : the part before the first colon and the part after
    it; [None] when there is no colon (the call then returns a one-element
    list). *)
Fixpoint split_colon (s : string) : option (string * string) :=
  match s with
  | EmptyString => None
  | String c s' =>
      if Ascii.eqb c colon then Some (EmptyString, s')
      else match split_colon s' with
           | Some (a, b) => Some (String c a, b)
           | None => None
           end
  end.

(** Two characters that differ at most by the case of an ASCII letter. *)
Definition ci_char (a b : ascii) : Prop :=
  a = b
  \/ (is_lower a = true /\ N_of_ascii a = (N_of_ascii b + 32)%N)
  \/ (is_lower b = true /\ N_of_ascii b = (N_of_ascii a + 32)%N).

(** Case-insensitive equality of two strings, character by character. *)
Fixpoint ci_equal (s t : string) : Prop :=
  match s, t with
  | EmptyString, EmptyString => True
  | String a s', String b t' => ci_char a b /\ ci_equal s' t'
  | _, _ => False
  end.

(** [s] is case-insensitively equal to one of the strings of [l]. *)
Definition ci_one_of (s : string) (l : list string) : Prop :=
  Exists (ci_equal s) l.

End PyStr.

(** ** Numbers: [int(f)], comparisons between [int] and [float] *)

Module PyNum.

(** [int(f)]: truncation towards zero; [OverflowError] on an infinity,
    [ValueError] on a NaN. *)
Definition py_int (f : spec_float) : result Z :=
  match f with
  | S754_zero _ => Ok 0
  | S754_infinity _ => Raise OverflowError
  | S754_nan => Raise ValueError
  | S754_finite s m e => Ok (cond_Zopp s (Z.shiftl (Zpos m) e))
  end.

(** Exact comparison of an integer with a float; [None] on a NaN. *)
Definition Zfloat_compare (n : Z) (f : spec_float) : option comparison :=
  match f with
  | S754_nan => None
  | S754_infinity s => Some (if s then Gt else Lt)
  | S754_zero _ => Some (n ?= 0)
  | S754_finite s m e =>
      let v := cond_Zopp s (Zpos m) in
      Some (if 0 <=? e then n ?= v * 2 ^ e else n * 2 ^ (- e) ?= v)
  end.

Definition binary64_sub : spec_float -> spec_float -> spec_float :=
  SFsub 53 1024.

End PyNum.

(** ** Values of the shared stores *)

Inductive value : Type :=
| VNone
| VBool (b : bool)
| VInt (n : Z)
| VFloat (f : spec_float)
| VStr (s : string).

Module PyVal.
Import PyNum.

Inductive num : Type :=
| NInt (n : Z)
| NFloat (f : spec_float).

(** The numeric reading of a value ([bool] is a subclass of [int]). *)
Definition num_of (v : value) : option num :=
  match v with
  | VBool b => Some (NInt (Z.b2z b))
  | VInt n => Some (NInt n)
  | VFloat f => Some (NFloat f)
  | VNone | VStr _ => None
  end.

Definition num_compare (a b : num) : option comparison :=
  match a, b with
  | NInt x, NInt y => Some (x ?= y)
  | NInt x, NFloat g => Zfloat_compare x g
  | NFloat f, NInt y => option_map CompOpp (Zfloat_compare y f)
  | NFloat f, NFloat g => SFcompare f g
  end.

(** [v < n] for an [int] [n]; [TypeError] when [v] is not a number. *)
Definition lt_int (v : value) (n : Z) : result bool :=
  match num_of v with
  | Some a => Ok (match num_compare a (NInt n) with
                  | Some Lt => true
                  | _ => false
                  end)
  | None => Raise TypeError
  end.

(** [n <= v] for an [int] [n]. *)
Definition int_le (n : Z) (v : value) : result bool :=
  match num_of v with
  | Some b => Ok (match num_compare (NInt n) b with
                  | Some Lt | Some Eq => true
                  | _ => false
                  end)
  | None => Raise TypeError
  end.

(** [min(n, v)] for an [int] [n]: the builtin keeps its first argument
    unless a later one is strictly smaller. *)
Definition min_int (n : Z) (v : value) : result value :=
  b <<- lt_int v n ;;
  Ok (if b then v else VInt n).

(** [v == n] for an [int] [n] (never raises). *)
Definition eq_int (v : value) (n : Z) : bool :=
  match num_of v with
  | Some a => match num_compare a (NInt n) with
              | Some Eq => true
              | _ => false
              end
  | None => false
  end.

(** [v in l] for a list of [int]s. *)
Definition in_ints (v : value) (l : list Z) : bool :=
  existsb (eq_int v) l.

(** Truth value of an object, as taken by [if], [and], [not]. *)
Definition truthy (v : value) : bool :=
  match v with
  | VNone => false
  | VBool b => b
  | VInt n => negb (n =? 0)
  | VFloat (S754_zero _) => false
  | VFloat _ => true
  | VStr s => negb (String.eqb s "")
  end.

End PyVal.

(** ** JSON documents: the argument handed to [json.dumps] *)

Unset Elimination Schemes.
Inductive json : Type :=
| JNull
| JBool (b : bool)
| JInt (n : Z)
| JFloat (f : spec_float)
| JStr (s : string)
| JList (l : list json)
| JObj (fields : list (string * json)).
Set Elimination Schemes.

Definition to_json (v : value) : json :=
  match v with
  | VNone => JNull
  | VBool b => JBool b
  | VInt n => JInt n
  | VFloat f => JFloat f
  | VStr s => JStr s
  end.

(** A [dict] literal, in insertion order. *)
Fixpoint assoc (k : string) (d : list (string * json)) : option json :=
  match d with
  | [] => None
  | (k', v) :: d' => if String.eqb k k' then Some v else assoc k d'
  end.

(** Field [k] of a JSON object. *)
Definition field (k : string) (j : json) : option json :=
  match j with
  | JObj d => assoc k d
  | _ => None
  end.

(** ** Plugin configuration ([pluginParamSpec], read with [get_config]) *)

Record PluginConfig : Type := {
  enabled : bool;
  mqtt_host : string;
  mqtt_port : Z;
  mqtt_username : string;
  mqtt_password : string;
  mqtt_discovery_prefix : string;
  device_name : string;
  device_id : string;
  publish_interval : Z
}.

(** ** The world the plugin runs in *)

(** One call of [mqtt_client.publish]; [p_raised] tells whether it raised. *)
Record publish_call : Type := {
  p_topic : string;
  p_payload : json;
  p_retain : bool;
  p_raised : bool
}.

(** A reading of [time.time()]: a positive finite binary64 number,
    [t_mant * 2 ^ t_exp]. *)
Record time_reading : Type := {
  t_mant : positive;
  t_exp : Z
}.

Definition time_float (t : time_reading) : spec_float :=
  S754_finite false (t_mant t) (t_exp t).

(** [int(time.time())] *)
Definition time_int (t : time_reading) : Z :=
  Z.shiftl (Zpos (t_mant t)) (t_exp t).

Record world : Type := {
  (* module level *)
  MQTT_AVAILABLE : bool;
  (* self *)
  config : PluginConfig;
  connected : bool;
  last_publish : spec_float;
  discovery_sent : bool;
  (* globalState *)
  configDB : gmap (string * string) value;
  stateDict : gmap string value;
  (* the MQTT client: calls made so far, oldest first *)
  outbox : list publish_call;
  subscriptions : list string;
  (* outcomes of the next client calls: [true] = the call raises; a call
     past the end of the list succeeds *)
  faults : list bool;
  (* [_send_discovery] threads started and not yet run *)
  spawned : nat
}.

Definition with_connected (b : bool) (w : world) : world :=
  {| MQTT_AVAILABLE := MQTT_AVAILABLE w; config := config w; connected := b;
     last_publish := last_publish w; discovery_sent := discovery_sent w;
     configDB := configDB w; stateDict := stateDict w; outbox := outbox w;
     subscriptions := subscriptions w; faults := faults w;
     spawned := spawned w |}.

Definition with_last_publish (t : spec_float) (w : world) : world :=
  {| MQTT_AVAILABLE := MQTT_AVAILABLE w; config := config w;
     connected := connected w; last_publish := t;
     discovery_sent := discovery_sent w; configDB := configDB w;
     stateDict := stateDict w; outbox := outbox w;
     subscriptions := subscriptions w; faults := faults w;
     spawned := spawned w |}.

Definition with_discovery_sent (b : bool) (w : world) : world :=
  {| MQTT_AVAILABLE := MQTT_AVAILABLE w; config := config w;
     connected := connected w; last_publish := last_publish w;
     discovery_sent := b; configDB := configDB w; stateDict := stateDict w;
     outbox := outbox w; subscriptions := subscriptions w;
     faults := faults w; spawned := spawned w |}.

Definition with_configDB (db : gmap (string * string) value) (w : world)
  : world :=
  {| MQTT_AVAILABLE := MQTT_AVAILABLE w; config := config w;
     connected := connected w; last_publish := last_publish w;
     discovery_sent := discovery_sent w; configDB := db;
     stateDict := stateDict w; outbox := outbox w;
     subscriptions := subscriptions w; faults := faults w;
     spawned := spawned w |}.

Definition with_spawned (n : nat) (w : world) : world :=
  {| MQTT_AVAILABLE := MQTT_AVAILABLE w; config := config w;
     connected := connected w; last_publish := last_publish w;
     discovery_sent := discovery_sent w; configDB := configDB w;
     stateDict := stateDict w; outbox := outbox w;
     subscriptions := subscriptions w; faults := faults w; spawned := n |}.

(** [self.get_config(name)] *)
Definition get_config {A : Type} (proj : PluginConfig -> A) (w : world) : A :=
  proj (config w).

(** Modelled from the spec: [globalState.configDB], the SharedConfigStore
    with [get(plugin, key, default) -> value] and [set(plugin, key, value)],
    a key-value map keyed by (plugin-name, setting-name). *)
Module ConfigDB.

Definition get (plugin key : string) (dflt : value) (w : world) : value :=
  match configDB w !! (plugin, key) with
  | Some v => v
  | None => dflt
  end.

Definition set (plugin key : string) (v : value) (w : world) : world :=
  with_configDB (<[(plugin, key) := v]> (configDB w)) w.

End ConfigDB.

(** [globalState.stateDict.get(key, default)]: a Python [dict]. *)
Definition stateDict_get (key : string) (dflt : value) (w : world) : value :=
  match stateDict w !! key with
  | Some v => v
  | None => dflt
  end.

(** ** The MQTT client *)

Module Client.

(** [mqtt_client.publish(topic, payload, retain=...)]: the call is logged,
    and its outcome is the next entry of [faults]. *)
Definition publish (topic : string) (payload : json) (retain : bool)
    (w : world) : world :=
  let raised := match faults w with
                | b :: _ => b
                | [] => false
                end in
  {| MQTT_AVAILABLE := MQTT_AVAILABLE w; config := config w;
     connected := connected w; last_publish := last_publish w;
     discovery_sent := discovery_sent w; configDB := configDB w;
     stateDict := stateDict w;
     outbox := outbox w ++ [ {| p_topic := topic; p_payload := payload;
                                p_retain := retain; p_raised := raised |} ];
     subscriptions := subscriptions w;
     faults := tail (faults w); spawned := spawned w |}.

(** [mqtt_client.subscribe(topic)] *)
Definition subscribe (topic : string) (w : world) : world :=
  {| MQTT_AVAILABLE := MQTT_AVAILABLE w; config := config w;
     connected := connected w; last_publish := last_publish w;
     discovery_sent := discovery_sent w; configDB := configDB w;
     stateDict := stateDict w; outbox := outbox w;
     subscriptions := subscriptions w ++ [topic];
     faults := tail (faults w); spawned := spawned w |}.

End Client.

(** [threading.Thread(target=self._send_discovery, daemon=True).start()]:
    the thread body runs later, as an event of its own. *)
Definition start_discovery_thread (w : world) : world :=
  with_spawned (S (spawned w)) w.

(** An incoming MQTT message: [msg.topic] and the raw bytes [msg.payload]. *)
Record message : Type := {
  topic : string;
  payload : string
}.

(** [d[k]] on a [dict] literal.  Every key read this way below is present in
    every literal it is read from (see [all_entities_keys]). *)
Definition item (k : string) (d : list (string * json)) : json :=
  match assoc k d with
  | Some v => v
  | None => JNull
  end.

(** The text an f-string inserts for a [str] value. *)
Definition fstr (j : json) : string :=
  match j with
  | JStr s => s
  | _ => ""
  end.

(** ** The plugin *)

Section Plugin.

(** [globalState.MIN_CHARGING_CURRENT] and
    [globalState.MAX_CHARGING_CURRENT], two integer constants. *)
Variable MIN_CHARGING_CURRENT MAX_CHARGING_CURRENT : Z.

(** The builtin [float(s)] on a [str]: [ValueError] when [s] is not a
    number literal. *)
Variable py_float : string -> result spec_float.

(** [b.decode('utf-8').strip()] on the bytes of a message. *)
Variable decode_strip : string -> result string.

Import PyStr PyNum PyVal.

(** *** Connection callbacks *)

Definition command_topics (dev : string) : list string :=
  [ "openeo/" +:+ dev +:+ "/command/switch/set";
    "openeo/" +:+ dev +:+ "/command/current_limit/set";
    "openeo/" +:+ dev +:+ "/command/mode/set";
    "openeo/" +:+ dev +:+ "/command/enable_plugin/set" ].

Definition _subscribe_to_commands (w : world) : world :=
  if negb (connected w) then w
  else
    let device_id := get_config device_id w in
    fold_left (fun w topic => Client.subscribe topic w)
              (command_topics device_id) w.

Definition _on_connect (rc : Z) (w : world) : world :=
  if rc =? 0 then
    let w := with_connected true w in
    let w := _subscribe_to_commands w in
    start_discovery_thread w
  else w.

Definition _on_disconnect (rc : Z) (w : world) : world :=
  let w := with_connected false w in
  let w := with_discovery_sent false w in
  w.

(** *** Command handlers *)

Definition _handle_switch_command (payload : string) (w : world) : world :=
  let switch_on := mem (upper payload) ["ON"; "TRUE"; "1"] in
  let w := ConfigDB.set "switch" "enabled" (VBool true) w in
  let w := ConfigDB.set "switch" "on" (VBool switch_on) w in
  let w := ConfigDB.set "scheduler" "enabled" (VBool false) w in
  w.

(** The [try] body of [_handle_current_limit_command] up to the range
    test: [Ok (Some n)] when [n] passes it, [Ok None] on the early
    [return]. *)
Definition current_limit_checked (payload : string) (w : world)
  : result (option Z) :=
  f <<- py_float payload ;;
  current_limit <<- py_int f ;;
  max_allowed <<- min_int MAX_CHARGING_CURRENT
                    (stateDict_get "eo_overall_limit_current"
                                   (VInt MAX_CHARGING_CURRENT) w) ;;
  in_range <<- (if MIN_CHARGING_CURRENT <=? current_limit
                then int_le current_limit max_allowed
                else Ok false) ;;
  Ok (if in_range then Some current_limit else None).

Definition _handle_current_limit_command (payload : string) (w : world)
  : world :=
  match current_limit_checked payload w with
  | Ok (Some current_limit) =>
      let w := ConfigDB.set "switch" "amps" (VInt current_limit) w in
      let w := ConfigDB.set "switch" "enabled" (VBool true) w in
      let w := ConfigDB.set "scheduler" "enabled" (VBool false) w in
      w
  | Ok None => w
  | Raise _ => w
  end.

Definition _handle_mode_command (payload : string) (w : world) : world :=
  let mode := lower payload in
  if String.eqb mode "manual" then
    let w := ConfigDB.set "switch" "enabled" (VBool true) w in
    ConfigDB.set "scheduler" "enabled" (VBool false) w
  else if String.eqb mode "schedule" then
    let w := ConfigDB.set "scheduler" "enabled" (VBool true) w in
    ConfigDB.set "switch" "enabled" (VBool false) w
  else if String.eqb mode "off" then
    let w := ConfigDB.set "scheduler" "enabled" (VBool false) w in
    ConfigDB.set "switch" "enabled" (VBool false) w
  else w.

Definition valid_plugins : list string :=
  ["scheduler"; "switch"; "loadmanagement"].

Definition _handle_enable_plugin_command (payload : string) (w : world)
  : world :=
  if negb (has_colon payload) then w
  else
    match split_colon payload with
    | Some (plugin_name, enabled_str) =>
        let enabled := mem (lower enabled_str)
                           ["true"; "on"; "1"; "enabled"] in
        if negb (mem plugin_name valid_plugins) then w
        else ConfigDB.set plugin_name "enabled" (VBool enabled) w
    | None => w
    end.

Definition _on_message (msg : message) (w : world) : world :=
  let topic := topic msg in
  match decode_strip (payload msg) with
  | Raise _ => w
  | Ok payload =>
      let device_id := get_config device_id w in
      if String.eqb topic ("openeo/" +:+ device_id +:+ "/command/switch/set")
      then _handle_switch_command payload w
      else if String.eqb topic
                ("openeo/" +:+ device_id +:+ "/command/current_limit/set")
      then _handle_current_limit_command payload w
      else if String.eqb topic
                ("openeo/" +:+ device_id +:+ "/command/mode/set")
      then _handle_mode_command payload w
      else if String.eqb topic
                ("openeo/" +:+ device_id +:+ "/command/enable_plugin/set")
      then _handle_enable_plugin_command payload w
      else w
  end.

(** *** Discovery publisher *)

Definition _get_device_info (w : world) : json :=
  JObj [ ("identifiers", JList [JStr (get_config device_id w)]);
         ("name", JStr (get_config device_name w));
         ("manufacturer", JStr "OpenEO");
         ("model", JStr "EV Charger Controller");
         ("sw_version",
          to_json (stateDict_get "app_version" (VStr "unknown") w)) ].

Definition sensors (device_id : string) : list (list (string * json)) :=
  [
    [ ("component", JStr "sensor");
      ("object_id", JStr "charger_state");
      ("name", JStr "Charger State");
      ("state_topic", JStr ("openeo/" +:+ device_id +:+ "/state"));
      ("value_template", JStr "{{ value_json.charger_state }}");
      ("icon", JStr "mdi:ev-station") ];
    [ ("component", JStr "sensor");
      ("object_id", JStr "amps_requested");
      ("name", JStr "Amps Requested");
      ("state_topic", JStr ("openeo/" +:+ device_id +:+ "/state"));
      ("value_template", JStr "{{ value_json.amps_requested }}");
      ("unit_of_measurement", JStr "A");
      ("device_class", JStr "current");
      ("icon", JStr "mdi:current-ac") ];
    [ ("component", JStr "sensor");
      ("object_id", JStr "amps_limit");
      ("name", JStr "Amps Limit");
      ("state_topic", JStr ("openeo/" +:+ device_id +:+ "/state"));
      ("value_template", JStr "{{ value_json.amps_limit }}");
      ("unit_of_measurement", JStr "A");
      ("device_class", JStr "current");
      ("icon", JStr "mdi:current-ac") ];
    [ ("component", JStr "sensor");
      ("object_id", JStr "power_delivered");
      ("name", JStr "Power Delivered");
      ("state_topic", JStr ("openeo/" +:+ device_id +:+ "/state"));
      ("value_template", JStr "{{ value_json.power_delivered }}");
      ("unit_of_measurement", JStr "kW");
      ("device_class", JStr "power");
      ("icon", JStr "mdi:flash") ];
    [ ("component", JStr "sensor");
      ("object_id", JStr "power_requested");
      ("name", JStr "Power Requested");
      ("state_topic", JStr ("openeo/" +:+ device_id +:+ "/state"));
      ("value_template", JStr "{{ value_json.power_requested }}");
      ("unit_of_measurement", JStr "kW");
      ("device_class", JStr "power");
      ("icon", JStr "mdi:flash-outline") ];
    [ ("component", JStr "sensor");
      ("object_id", JStr "voltage");
      ("name", JStr "Voltage");
      ("state_topic", JStr ("openeo/" +:+ device_id +:+ "/state"));
      ("value_template", JStr "{{ value_json.voltage }}");
      ("unit_of_measurement", JStr "V");
      ("device_class", JStr "voltage");
      ("icon", JStr "mdi:lightning-bolt") ];
    [ ("component", JStr "sensor");
      ("object_id", JStr "frequency");
      ("name", JStr "Mains Frequency");
      ("state_topic", JStr ("openeo/" +:+ device_id +:+ "/state"));
      ("value_template", JStr "{{ value_json.frequency }}");
      ("unit_of_measurement", JStr "Hz");
      ("device_class", JStr "frequency");
      ("icon", JStr "mdi:sine-wave") ];
    [ ("component", JStr "sensor");
      ("object_id", JStr "current_site");
      ("name", JStr "Site Current");
      ("state_topic", JStr ("openeo/" +:+ device_id +:+ "/state"));
      ("value_template", JStr "{{ value_json.current_site }}");
      ("unit_of_measurement", JStr "A");
      ("device_class", JStr "current");
      ("icon", JStr "mdi:home-lightning-bolt") ];
    [ ("component", JStr "sensor");
      ("object_id", JStr "current_vehicle");
      ("name", JStr "Vehicle Current");
      ("state_topic", JStr ("openeo/" +:+ device_id +:+ "/state"));
      ("value_template", JStr "{{ value_json.current_vehicle }}");
      ("unit_of_measurement", JStr "A");
      ("device_class", JStr "current");
      ("icon", JStr "mdi:car-electric") ];
    [ ("component", JStr "sensor");
      ("object_id", JStr "current_solar");
      ("name", JStr "Solar Current");
      ("state_topic", JStr ("openeo/" +:+ device_id +:+ "/state"));
      ("value_template", JStr "{{ value_json.current_solar }}");
      ("unit_of_measurement", JStr "A");
      ("device_class", JStr "current");
      ("icon", JStr "mdi:solar-power") ];
    [ ("component", JStr "binary_sensor");
      ("object_id", JStr "vehicle_connected");
      ("name", JStr "Vehicle Connected");
      ("state_topic", JStr ("openeo/" +:+ device_id +:+ "/state"));
      ("value_template", JStr "{{ value_json.vehicle_connected }}");
      ("payload_on", JStr "true");
      ("payload_off", JStr "false");
      ("device_class", JStr "connectivity");
      ("icon", JStr "mdi:car-connected") ];
    [ ("component", JStr "binary_sensor");
      ("object_id", JStr "charging_active");
      ("name", JStr "Charging Active");
      ("state_topic", JStr ("openeo/" +:+ device_id +:+ "/state"));
      ("value_template", JStr "{{ value_json.charging_active }}");
      ("payload_on", JStr "true");
      ("payload_off", JStr "false");
      ("device_class", JStr "battery_charging");
      ("icon", JStr "mdi:battery-charging") ]
  ].

Definition control_entities (device_id : string)
    (max_allowed_current : value) : list (list (string * json)) :=
  [
    [ ("component", JStr "switch");
      ("object_id", JStr "charger_switch");
      ("name", JStr "Charger Switch");
      ("state_topic", JStr ("openeo/" +:+ device_id +:+ "/state"));
      ("command_topic", JStr ("openeo/" +:+ device_id +:+ "/command/switch/set"));
      ("value_template", JStr "{{ 'ON' if (value_json.switch_enabled and value_json.switch_on) else 'OFF' }}");
      ("payload_on", JStr "ON");
      ("payload_off", JStr "OFF");
      ("icon", JStr "mdi:ev-station");
      ("device_class", JStr "switch") ];
    [ ("component", JStr "number");
      ("object_id", JStr "current_limit");
      ("name", JStr "Current Limit");
      ("state_topic", JStr ("openeo/" +:+ device_id +:+ "/state"));
      ("command_topic", JStr ("openeo/" +:+ device_id +:+ "/command/current_limit/set"));
      ("value_template", JStr "{{ value_json.amps_limit }}");
      ("min", JInt MIN_CHARGING_CURRENT);
      ("max", to_json max_allowed_current);
      ("step", JInt 1);
      ("unit_of_measurement", JStr "A");
      ("device_class", JStr "current");
      ("icon", JStr "mdi:current-ac") ];
    [ ("component", JStr "select");
      ("object_id", JStr "charger_mode");
      ("name", JStr "Charger Mode");
      ("state_topic", JStr ("openeo/" +:+ device_id +:+ "/state"));
      ("command_topic", JStr ("openeo/" +:+ device_id +:+ "/command/mode/set"));
      ("value_template", JStr "{{ 'manual' if value_json.mode == 'manual' else ('schedule' if value_json.mode == 'schedule' else 'off') }}");
      ("options", JList [JStr "manual"; JStr "schedule"; JStr "off"]);
      ("icon", JStr "mdi:cog") ]
  ].

Definition optional_fields : list string :=
  [ "value_template"; "unit_of_measurement"; "device_class"; "icon";
    "payload_on"; "payload_off"; "command_topic"; "min"; "max"; "step";
    "options" ].

(** The [config] dict of one entity: four fixed keys, then each optional
    field the entity has, in the order of [optional_fields]. *)
Definition discovery_config (device_id : string) (device_info : json)
    (entity : list (string * json)) : json :=
  let config :=
    [ ("name", item "name" entity);
      ("unique_id",
       JStr (device_id +:+ "_" +:+ fstr (item "object_id" entity)));
      ("state_topic", item "state_topic" entity);
      ("device", device_info) ] in
  JObj (fold_left
          (fun config field =>
             match assoc field entity with
             | Some v => (config ++ [(field, v)])%list
             | None => config
             end)
          optional_fields config).

Definition discovery_topic (discovery_prefix device_id : string)
    (entity : list (string * json)) : string :=
  discovery_prefix +:+ "/" +:+ fstr (item "component" entity) +:+ "/"
    +:+ device_id +:+ "/" +:+ fstr (item "object_id" entity) +:+ "/config".

(** One turn of the [for entity in all_entities] loop; whether the publish
    raises or not, the loop goes on. *)
Definition publish_discovery (discovery_prefix device_id : string)
    (device_info : json) (w : world) (entity : list (string * json))
  : world :=
  let config := discovery_config device_id device_info entity in
  let topic := discovery_topic discovery_prefix device_id entity in
  Client.publish topic config true w.

Definition all_entities (device_id : string) (max_allowed_current : value)
  : list (list (string * json)) :=
  (sensors device_id ++ control_entities device_id max_allowed_current)%list.

(** [_send_discovery]: [Raise] when [min] raises, which happens before the
    first publish and is not caught. *)
Definition _send_discovery (w : world) : result world :=
  if negb (connected w) then Ok w
  else
    let device_info := _get_device_info w in
    let discovery_prefix := get_config mqtt_discovery_prefix w in
    let device_id := get_config device_id w in
    max_allowed_current <<-
      min_int MAX_CHARGING_CURRENT
        (stateDict_get "eo_overall_limit_current"
                       (VInt MAX_CHARGING_CURRENT) w) ;;
    let w :=
      fold_left (publish_discovery discovery_prefix device_id device_info)
                (all_entities device_id max_allowed_current) w in
    Ok (with_discovery_sent true w).

(** *** State publisher *)

Definition py_bool_str (b : bool) : json :=
  JStr (if b then "true" else "false").

Definition current_mode (w : world) : string :=
  let switch_enabled := ConfigDB.get "switch" "enabled" (VBool false) w in
  let scheduler_enabled :=
    ConfigDB.get "scheduler" "enabled" (VBool false) w in
  if truthy switch_enabled && negb (truthy scheduler_enabled)
  then "manual"
  else if truthy scheduler_enabled && negb (truthy switch_enabled)
  then "schedule"
  else "off".

Definition state_payload (stamp : time_reading) (w : world) : json :=
  let charger_state := stateDict_get "eo_charger_state" (VStr "") w in
  let charger_state_id := stateDict_get "eo_charger_state_id" (VInt 0) w in
  let vehicle_connected :=
    in_ints charger_state_id [7; 8; 9; 10; 11; 12; 13; 14; 15; 16] in
  let charging_active := in_ints charger_state_id [11; 12; 13; 14] in
  JObj
    [ ("charger_state", to_json charger_state);
      ("charger_state_id", to_json charger_state_id);
      ("amps_requested",
       to_json (stateDict_get "eo_amps_requested" (VInt 0) w));
      ("amps_limit", to_json (stateDict_get "eo_amps_limit" (VInt 0) w));
      ("power_delivered",
       to_json (stateDict_get "eo_power_delivered" (VInt 0) w));
      ("power_requested",
       to_json (stateDict_get "eo_power_requested" (VInt 0) w));
      ("voltage", to_json (stateDict_get "eo_live_voltage" (VInt 0) w));
      ("frequency",
       to_json (stateDict_get "eo_mains_frequency" (VInt 0) w));
      ("current_site",
       to_json (stateDict_get "eo_current_site" (VInt 0) w));
      ("current_vehicle",
       to_json (stateDict_get "eo_current_vehicle" (VInt 0) w));
      ("current_solar",
       to_json (stateDict_get "eo_current_solar" (VInt 0) w));
      ("vehicle_connected", py_bool_str vehicle_connected);
      ("charging_active", py_bool_str charging_active);
      ("mode", JStr (current_mode w));
      ("switch_on", to_json (ConfigDB.get "switch" "on" (VBool false) w));
      ("switch_enabled",
       to_json (ConfigDB.get "switch" "enabled" (VBool false) w));
      ("serial_errors",
       to_json (stateDict_get "eo_serial_errors" (VInt 0) w));
      ("app_version",
       to_json (stateDict_get "app_version" (VStr "unknown") w));
      ("timestamp", JInt (time_int stamp)) ].

Definition state_topic (w : world) : string :=
  "openeo/" +:+ get_config device_id w +:+ "/state".

(** [_publish_state]; [stamp] is the clock reading taken for "timestamp". *)
Definition _publish_state (stamp : time_reading) (w : world) : world :=
  if negb (connected w) then w
  else Client.publish (state_topic w) (state_payload stamp w) false w.

(** *** Poll hook *)

(** [current_time - self.last_publish >= publish_interval] *)
Definition interval_elapsed (current_time : time_reading) (w : world)
  : bool :=
  match num_compare
          (NFloat (binary64_sub (time_float current_time) (last_publish w)))
          (NInt (get_config publish_interval w)) with
  | Some Gt | Some Eq => true
  | _ => false
  end.

(** [poll]: the new world and the returned value.  [current_time] is the
    reading taken by [poll] itself, [stamp] the later one taken inside
    [_publish_state]. *)
Definition poll (current_time stamp : time_reading) (w : world)
  : world * Z :=
  if negb (MQTT_AVAILABLE w) || negb (get_config enabled w) then (w, 0)
  else
    let w :=
      if connected w && negb (discovery_sent w)
      then start_discovery_thread w
      else w in
    let w :=
      if interval_elapsed current_time w
      then with_last_publish (time_float current_time)
                             (_publish_state stamp w)
      else w in
    (w, 0).

(** *** Everything that can happen to the plugin *)

Inductive event : Type :=
| EConnect (rc : Z)
| EDisconnect (rc : Z)
| EMessage (msg : message)
| EPoll (current_time stamp : time_reading)
| ERunDiscovery.

(** A started discovery thread runs its body; a thread whose body raises
    dies and leaves the world as it was. *)
Definition run_discovery_thread (w : world) : world :=
  match spawned w with
  | O => w
  | S n =>
      let w := with_spawned n w in
      match _send_discovery w with
      | Ok w' => w'
      | Raise _ => w
      end
  end.

Definition step (ev : event) (w : world) : world :=
  match ev with
  | EConnect rc => _on_connect rc w
  | EDisconnect rc => _on_disconnect rc w
  | EMessage msg => _on_message msg w
  | EPoll current_time stamp => fst (poll current_time stamp w)
  | ERunDiscovery => run_discovery_thread w
  end.

Definition run (evs : list event) (w : world) : world :=
  fold_left (fun w ev => step ev w) evs w.

End Plugin.

(** [__init__]: the plugin before any callback.  [last_publish] starts as
    the integer 0, which the first subtraction reads as the float +0.0. *)
Definition init (available : bool) (cfg : PluginConfig)
    (db : gmap (string * string) value) (sd : gmap string value)
    (fl : list bool) : world :=
  {| MQTT_AVAILABLE := available; config := cfg; connected := false;
     last_publish := S754_zero false; discovery_sent := false;
     configDB := db; stateDict := sd; outbox := []; subscriptions := [];
     faults := fl; spawned := O |}.

(** ** Vocabulary of the properties *)

Section Vocabulary.

Variable MAX_CHARGING_CURRENT : Z.
Variable py_float : string -> result spec_float.

Import PyStr PyNum PyVal.

(** [w'] is [w] up to the contents of the configuration store. *)
Definition only_configDB_differs (w w' : world) : Prop :=
  MQTT_AVAILABLE w' = MQTT_AVAILABLE w /\ config w' = config w
  /\ connected w' = connected w /\ last_publish w' = last_publish w
  /\ discovery_sent w' = discovery_sent w /\ stateDict w' = stateDict w
  /\ outbox w' = outbox w /\ subscriptions w' = subscriptions w
  /\ faults w' = faults w /\ spawned w' = spawned w.

(** [w'] is [w] with exactly the keys of [updates] set, each to the value
    listed for it, in the configuration store. *)
Definition config_set_to (updates : list ((string * string) * value))
    (w w' : world) : Prop :=
  (forall k v, In (k, v) updates -> configDB w' !! k = Some v)
  /\ (forall k, (forall v, ~ In (k, v) updates) ->
                configDB w' !! k = configDB w !! k)
  /\ only_configDB_differs w w'.

(** [w'] is [w] up to the client's publish log and pending outcomes. *)
Definition only_outbox_differs (w w' : world) : Prop :=
  MQTT_AVAILABLE w' = MQTT_AVAILABLE w /\ config w' = config w
  /\ connected w' = connected w /\ last_publish w' = last_publish w
  /\ discovery_sent w' = discovery_sent w /\ configDB w' = configDB w
  /\ stateDict w' = stateDict w /\ subscriptions w' = subscriptions w
  /\ spawned w' = spawned w.

(** The integer amps a payload stands for: the payload read as a
    floating-point number and truncated; [None] when it is no number or the
    number has no truncation (an infinity, a NaN). *)
Definition truncated_amps (payload : string) : option Z :=
  match py_float payload with
  | Ok f => match py_int f with
            | Ok n => Some n
            | Raise _ => None
            end
  | Raise _ => None
  end.

(** The configured overall limit, when the shared state holds an integer
    under "eo_overall_limit_current", else MAX_CHARGING_CURRENT when it
    holds nothing. *)
Definition overall_limit_is (w : world) (l : Z) : Prop :=
  stateDict_get "eo_overall_limit_current" (VInt MAX_CHARGING_CURRENT) w
  = VInt l.

(** The calls made by the discovery loop over [ents], the outcomes being
    read from [fl]. *)
Fixpoint discovery_calls (prefix dev : string) (info : json)
    (ents : list (list (string * json))) (fl : list bool)
  : list publish_call :=
  match ents with
  | [] => []
  | e :: ents' =>
      {| p_topic := discovery_topic prefix dev e;
         p_payload := discovery_config dev info e;
         p_retain := true;
         p_raised := match fl with b :: _ => b | [] => false end |}
      :: discovery_calls prefix dev info ents' (tail fl)
  end.

(** What a call says, leaving its outcome out. *)
Definition call_content (c : publish_call) : string * json * bool :=
  (p_topic c, p_payload c, p_retain c).

(** The entities of the catalog, as (component, object id). *)
Definition entity_catalog : list (string * string) :=
  [ ("sensor", "charger_state"); ("sensor", "amps_requested");
    ("sensor", "amps_limit"); ("sensor", "power_delivered");
    ("sensor", "power_requested"); ("sensor", "voltage");
    ("sensor", "frequency"); ("sensor", "current_site");
    ("sensor", "current_vehicle"); ("sensor", "current_solar");
    ("binary_sensor", "vehicle_connected");
    ("binary_sensor", "charging_active");
    ("switch", "charger_switch"); ("number", "current_limit");
    ("select", "charger_mode") ].

(** {discovery_prefix}/{component}/{device_id}/{object_id}/config *)
Definition config_topic (prefix dev : string) (e : string * string)
  : string :=
  prefix +:+ "/" +:+ fst e +:+ "/" +:+ dev +:+ "/" +:+ snd e +:+ "/config".


(** The "enabled" flag of a plugin in the configuration store, read as a
    truth value ([False] when unset). *)
Definition flag_on (plugin : string) (w : world) : Prop :=
  truthy (ConfigDB.get plugin "enabled" (VBool false) w) = true.

(** The charger state id of the shared state ([0] when unset). *)
Definition charger_state_id (w : world) : value :=
  stateDict_get "eo_charger_state_id" (VInt 0) w.

End Vocabulary.

(** ** Instances of the builtins, for closed examples *)

Module Examples.

Definition digit_of (c : ascii) : option Z :=
  let n := N_of_ascii c in
  if ((48 <=? n) && (n <=? 57))%N then Some (Z.of_N n - 48) else None.

Fixpoint digits_value (s : string) (acc : Z) : option Z :=
  match s with
  | EmptyString => Some acc
  | String c s' =>
      match digit_of c with
      | Some d => digits_value s' (10 * acc + d)
      | None => None
      end
  end.

(** [float(s)] on the strings of one to fifteen decimal digits, whose value
    a binary64 number holds exactly; every other string is refused here. *)
Definition digits_float (s : string) : result spec_float :=
  if ((String.length s =? 0) || (15 <? String.length s))%nat
  then Raise ValueError
  else match digits_value s 0 with
       | Some (Zpos p) => Ok (S754_finite false p 0)
       | Some _ => Ok (S754_zero false)
       | None => Raise ValueError
       end.

(** [b.decode('utf-8').strip()] on bytes that are printable ASCII without
    blanks, which it returns as they are; everything else is refused
    here. *)
Fixpoint plain_ascii (s : string) : bool :=
  match s with
  | EmptyString => true
  | String c s' =>
      ((33 <=? N_of_ascii c) && (N_of_ascii c <=? 126))%N && plain_ascii s'
  end.

Definition plain_decode (s : string) : result string :=
  if plain_ascii s then Ok s else Raise UnicodeDecodeError.

Definition cfg0 : PluginConfig :=
  {| enabled := true; mqtt_host := "localhost"; mqtt_port := 1883;
     mqtt_username := ""; mqtt_password := "";
     mqtt_discovery_prefix := "homeassistant";
     device_name := "OpenEO Charger"; device_id := "openeo_charger_1";
     publish_interval := 5 |}.

(** A fresh plugin with empty stores and a client that never fails. *)
Definition w0 : world := init true cfg0 ∅ ∅ [].

(** The stores of [w0] with one entry in the shared state. *)
Definition with_state (key : string) (v : value) : world :=
  init true cfg0 ∅ {[ key := v ]} [].

(** [w0] once connected. *)
Definition w_up : world := with_connected true w0.



(** Clock readings of 10, 12 and 15 seconds. *)
Definition t10 : time_reading := {| t_mant := 5; t_exp := 1 |}.
Definition t12 : time_reading := {| t_mant := 3; t_exp := 2 |}.
Definition t15 : time_reading := {| t_mant := 15; t_exp := 0 |}.

End Examples.

(** ** The settings tables *)

(** The class attribute [pluginParamSpec]: a dict of dicts. *)
Definition pluginParamSpec : list (string * list (string * json)) :=
  [ ("enabled", [("type", JStr "bool"); ("default", JBool false)]);
    ("mqtt_host", [("type", JStr "str"); ("default", JStr "localhost")]);
    ("mqtt_port", [("type", JStr "int"); ("default", JInt 1883)]);
    ("mqtt_username", [("type", JStr "str"); ("default", JStr "")]);
    ("mqtt_password", [("type", JStr "str"); ("default", JStr "")]);
    ("mqtt_discovery_prefix",
     [("type", JStr "str"); ("default", JStr "homeassistant")]);
    ("device_name", [("type", JStr "str"); ("default", JStr "OpenEO Charger")]);
    ("device_id", [("type", JStr "str"); ("default", JStr "openeo_charger_1")]);
    ("publish_interval", [("type", JStr "int"); ("default", JInt 5)]) ].

(** [get_user_settings]: the list of dicts handed to the web interface. *)
Definition get_user_settings : list (list (string * json)) :=
  [ [("key", JStr "enabled"); ("type", JStr "bool");
     ("title", JStr "Enable Home Assistant MQTT")];
    [("key", JStr "mqtt_host"); ("type", JStr "str");
     ("title", JStr "MQTT Broker Host")];
    [("key", JStr "mqtt_port"); ("type", JStr "int");
     ("title", JStr "MQTT Broker Port")];
    [("key", JStr "mqtt_username"); ("type", JStr "str");
     ("title", JStr "MQTT Username (optional)")];
    [("key", JStr "mqtt_password"); ("type", JStr "str");
     ("title", JStr "MQTT Password (optional)")];
    [("key", JStr "mqtt_discovery_prefix"); ("type", JStr "str");
     ("title", JStr "HA Discovery Prefix")];
    [("key", JStr "device_name"); ("type", JStr "str");
     ("title", JStr "Device Name in HA")];
    [("key", JStr "device_id"); ("type", JStr "str");
     ("title", JStr "Device ID")];
    [("key", JStr "publish_interval"); ("type", JStr "int");
     ("title", JStr "Publish Interval (seconds)")] ].

(** The configuration made of the defaults of [pluginParamSpec]. *)
Definition default_config : PluginConfig :=
  {| enabled := false; mqtt_host := "localhost"; mqtt_port := 1883;
     mqtt_username := ""; mqtt_password := "";
     mqtt_discovery_prefix := "homeassistant";
     device_name := "OpenEO Charger"; device_id := "openeo_charger_1";
     publish_interval := 5 |}.

(** ** More vocabulary *)

(** The three fields of the state document that are read from the
    configuration store. *)
Definition config_fields : list string :=
  ["mode"; "switch_on"; "switch_enabled"].

(** A publish call is well addressed for a configuration when it is either
    a retained call on the config topic of a catalog entity, or a call that
    is not retained on the state topic. *)
Definition well_addressed (cfg : PluginConfig) (c : publish_call) : Prop :=
  (p_retain c = true
   /\ exists e : string * string,
        In e entity_catalog
        /\ p_topic c
           = config_topic (mqtt_discovery_prefix cfg) (device_id cfg) e)
  \/ (p_retain c = false
      /\ p_topic c = "openeo/" +:+ device_id cfg +:+ "/state").

(** The flags never say that discovery was sent on a plugin that is not
    connected. *)
Definition sent_only_connected (w : world) : Prop :=
  discovery_sent w = true -> connected w = true.

(** The documents of a discovery run, as the configuration and the shared
    state of [w] make them. *)
Definition discovery_contents (MIN_CHARGING_CURRENT : Z) (w : world)
    (max_allowed : value) : list (string * json * bool) :=
  map (fun e => (discovery_topic (get_config mqtt_discovery_prefix w)
                   (get_config device_id w) e,
                 discovery_config (get_config device_id w)
                   (_get_device_info w) e,
                 true))
      (all_entities MIN_CHARGING_CURRENT (get_config device_id w)
         max_allowed).

(** The last character of a string. *)
Fixpoint last_char (s : string) : option ascii :=
  match s with
  | EmptyString => None
  | String c EmptyString => Some c
  | String _ s' => last_char s'
  end.

(** ** More example worlds *)

Module MoreExamples.
Import Examples.

(** A fresh plugin with the default configuration: disabled. *)
Definition w_default : world := init true default_config ∅ ∅ [].

(** A plugin with the switch plugin enabled by a command. *)
Definition w_switched : world := _handle_switch_command "ON" w0.

(** A connected plugin, with one discovery thread started, whose shared
    state holds a string as overall limit. *)
Definition w_bad_limit : world :=
  _on_connect 0 (with_state "eo_overall_limit_current" (VStr "auto")).

(** [w_up] with [last_publish] at 10 s. *)
Definition w_published : world :=
  with_last_publish (time_float t10) w_up.

(** The control entities of the device "dev", MIN = 6, limit 32. *)
Definition controls : list (list (string * json)) :=
  control_entities 6 "dev" (VInt 32).

(** A current limit command for the device of [cfg0]. *)
Definition msg_limit_15 : message :=
  {| topic := "openeo/openeo_charger_1/command/current_limit/set";
     payload := "15" |}.

End MoreExamples.

(** * Properties *)

(** ** Case mapping and case-insensitive equality *)

Module PyStrFacts.
Import PyStr.

Lemma ascii_eq_N (a b : ascii) : a = b <-> N_of_ascii a = N_of_ascii b.
Proof.
  split; [intros ->; reflexivity|].
  intros H. rewrite <- (ascii_N_embedding a), <- (ascii_N_embedding b).
  now rewrite H.
Qed.

Lemma to_upper_N (a : ascii) :
  N_of_ascii (to_upper a)
  = (if is_lower a then N_of_ascii a - 32 else N_of_ascii a)%N.
Proof.
  unfold to_upper. destruct (is_lower a); [|reflexivity].
  apply N_ascii_embedding. pose proof (N_ascii_bounded a). lia.
Qed.

Lemma to_lower_N (a : ascii) :
  N_of_ascii (to_lower a)
  = (if is_upper a then N_of_ascii a + 32 else N_of_ascii a)%N.
Proof.
  unfold to_lower. destruct (is_upper a) eqn:E; [|reflexivity].
  apply N_ascii_embedding. unfold is_upper in E.
  apply andb_true_iff in E as [_ E]. apply N.leb_le in E. lia.
Qed.

Ltac case_bounds :=
  repeat match goal with
    | |- context [N.leb ?x ?y] => destruct (N.leb_spec x y)
    end; simpl.

Lemma ci_char_upper (a b : ascii) : ci_char a b <-> to_upper a = to_upper b.
Proof.
  rewrite (ascii_eq_N (to_upper a)), !to_upper_N.
  unfold ci_char. rewrite (ascii_eq_N a b). unfold is_lower.
  pose proof (N_ascii_bounded a). pose proof (N_ascii_bounded b).
  case_bounds; intuition (try discriminate; lia).
Qed.

Lemma ci_char_lower (a b : ascii) : ci_char a b <-> to_lower a = to_lower b.
Proof.
  rewrite (ascii_eq_N (to_lower a)), !to_lower_N.
  unfold ci_char. rewrite (ascii_eq_N a b). unfold is_lower, is_upper.
  pose proof (N_ascii_bounded a). pose proof (N_ascii_bounded b).
  case_bounds; intuition (try discriminate; lia).
Qed.

Lemma ci_equal_upper (s t : string) : ci_equal s t <-> upper s = upper t.
Proof.
  revert t. induction s as [|a s IH]; intros [|b t]; simpl;
    try (split; [tauto | discriminate]).
  - tauto.
  - rewrite ci_char_upper, IH. split.
    + intros [-> ->]. reflexivity.
    + intros H. injection H. tauto.
Qed.

Lemma ci_equal_lower (s t : string) : ci_equal s t <-> lower s = lower t.
Proof.
  revert t. induction s as [|a s IH]; intros [|b t]; simpl;
    try (split; [tauto | discriminate]).
  - tauto.
  - rewrite ci_char_lower, IH. split.
    + intros [-> ->]. reflexivity.
    + intros H. injection H. tauto.
Qed.

Lemma mem_In (x : string) (l : list string) : mem x l = true <-> In x l.
Proof.
  induction l as [|y l IH]; simpl.
  - split; [discriminate | tauto].
  - destruct (String.eqb_spec x y) as [->|Hne].
    + tauto.
    + rewrite IH. split; [tauto|]. intros [E|H]; [congruence | exact H].
Qed.

(** Testing the upper-cased string against upper-case literals is
    case-insensitive membership. *)
Lemma mem_upper (s : string) (l : list string) :
  Forall (fun t => upper t = t) l ->
  mem (upper s) l = true <-> ci_one_of s l.
Proof.
  intros Hl. rewrite mem_In. unfold ci_one_of. rewrite List.Exists_exists.
  rewrite List.Forall_forall in Hl. split.
  - intros H. exists (upper s). split; [exact H|].
    apply ci_equal_upper. symmetry. apply Hl, H.
  - intros (t & Ht & Hc). apply ci_equal_upper in Hc.
    rewrite Hc, (Hl t Ht). exact Ht.
Qed.

Lemma mem_lower (s : string) (l : list string) :
  Forall (fun t => lower t = t) l ->
  mem (lower s) l = true <-> ci_one_of s l.
Proof.
  intros Hl. rewrite mem_In. unfold ci_one_of. rewrite List.Exists_exists.
  rewrite List.Forall_forall in Hl. split.
  - intros H. exists (lower s). split; [exact H|].
    apply ci_equal_lower. symmetry. apply Hl, H.
  - intros (t & Ht & Hc). apply ci_equal_lower in Hc.
    rewrite Hc, (Hl t Ht). exact Ht.
Qed.

Lemma has_colon_In (s : string) :
  has_colon s = true <-> In colon (list_ascii_of_string s).
Proof.
  induction s as [|c s IH]; simpl.
  - split; [discriminate | tauto].
  - destruct (Ascii.eqb_spec c colon) as [->|Hne].
    + tauto.
    + rewrite IH. split; [tauto|]. intros [E|H]; [congruence | exact H].
Qed.

(** [split_colon] cuts at the first colon. *)
Lemma split_colon_first (a b : string) :
  ~ In colon (list_ascii_of_string a) ->
  split_colon (a +:+ String colon b) = Some (a, b).
Proof.
  induction a as [|c a IH]; simpl; intros Hn.
  - reflexivity.
  - destruct (Ascii.eqb_spec c colon) as [->|Hne]; [tauto|].
    rewrite IH; [reflexivity | tauto].
Qed.

Lemma has_colon_app (a b : string) :
  has_colon (a +:+ String colon b) = true.
Proof.
  induction a as [|c a IH]; simpl; [reflexivity|].
  destruct (Ascii.eqb c colon); [reflexivity | exact IH].
Qed.

End PyStrFacts.

(** ** Numeric facts *)

Module PyValFacts.
Import PyVal.

Lemma min_int_int (n l : Z) : min_int n (VInt l) = Ok (VInt (Z.min n l)).
Proof.
  unfold min_int, lt_int, rbind, num_of, num_compare.
  destruct (Z.compare_spec l n); do 2 f_equal; lia.
Qed.

Lemma int_le_int (n m : Z) : int_le n (VInt m) = Ok (n <=? m).
Proof.
  unfold int_le, num_of, num_compare, Z.leb. now destruct (n ?= m).
Qed.

Lemma eq_int_int (n k : Z) : eq_int (VInt n) k = (n =? k).
Proof.
  unfold eq_int, num_of, num_compare.
  destruct (Z.compare_spec n k), (Z.eqb_spec n k); (reflexivity || lia).
Qed.

Lemma in_ints_int (n : Z) (l : list Z) :
  in_ints (VInt n) l = true <-> In n l.
Proof.
  unfold in_ints. rewrite existsb_exists. split.
  - intros (k & Hk & E). rewrite eq_int_int in E.
    apply Z.eqb_eq in E. now subst.
  - intros H. exists n. split; [exact H|].
    rewrite eq_int_int. apply Z.eqb_refl.
Qed.

(** A value that is not a number equals no integer. *)
Lemma in_ints_not_num (v : value) (l : list Z) :
  num_of v = None -> in_ints v l = false.
Proof.
  intros H. unfold in_ints. induction l as [|k l IH]; [reflexivity|].
  simpl. unfold eq_int at 1. rewrite H. exact IH.
Qed.

End PyValFacts.

(** ** What a command may change *)

Lemma only_configDB_differs_refl (w : world) : only_configDB_differs w w.
Proof. repeat split. Qed.

Lemma only_configDB_differs_trans (w1 w2 w3 : world) :
  only_configDB_differs w1 w2 -> only_configDB_differs w2 w3 ->
  only_configDB_differs w1 w3.
Proof. unfold only_configDB_differs. intuition congruence. Qed.

Lemma only_configDB_differs_set (p k : string) (v : value) (w : world) :
  only_configDB_differs w (ConfigDB.set p k v w).
Proof. repeat split. Qed.

(** Settles [config_set_to] for a chain of [ConfigDB.set] on listed keys. *)
Ltac solve_config_set_to :=
  unfold config_set_to; simpl; split; [| split ];
  [ intros k v Hin;
    repeat (destruct Hin as [Hin | Hin];
            [ inversion Hin; subst k v; clear Hin;
              repeat first [ rewrite lookup_insert_eq
                           | rewrite lookup_insert_ne by congruence ];
              reflexivity
            | ]);
    contradiction
  | intros k Hk;
    repeat (rewrite lookup_insert_ne;
            [| let E := fresh in
               intros E; subst k; eapply Hk; simpl; eauto 6 ]);
    reflexivity
  | repeat split ].

Section Properties.

#[local] Set Default Proof Using "Type".

Variable MIN_CHARGING_CURRENT MAX_CHARGING_CURRENT : Z.
Variable py_float : string -> result spec_float.
Variable decode_strip : string -> result string.

Import PyStr PyNum PyVal PyStrFacts PyValFacts.

(** *** Command handlers *)

(** C2. [switch/set]: whatever the payload, the handler sets
    switch.enabled to true and scheduler.enabled to false, and sets
    switch.on to true exactly when the payload equals "ON", "TRUE" or "1"
    up to case, to false otherwise; no other key and nothing outside the
    configuration store changes. *)
Theorem switch_command_effect (payload : string) (w : world) :
  exists on : bool,
    (on = true <-> ci_one_of payload ["ON"; "TRUE"; "1"])
    /\ config_set_to [ (("switch", "enabled"), VBool true);
                       (("switch", "on"), VBool on);
                       (("scheduler", "enabled"), VBool false) ]
                     w (_handle_switch_command payload w).
Proof.
  exists (mem (upper payload) ["ON"; "TRUE"; "1"]). split.
  - apply mem_upper. repeat constructor.
  - unfold _handle_switch_command. solve_config_set_to.
Qed.

(** C4. [mode/set]: the lower-cased payload "manual" sets switch.enabled to
    true and scheduler.enabled to false, "schedule" sets scheduler.enabled
    to true and switch.enabled to false, "off" sets both to false, and any
    other payload leaves the world, configuration store included, as it
    is. *)
Theorem mode_command_effect (payload : string) (w : world) :
  (lower payload = "manual" ->
   config_set_to [ (("switch", "enabled"), VBool true);
                   (("scheduler", "enabled"), VBool false) ]
                 w (_handle_mode_command payload w))
  /\ (lower payload = "schedule" ->
      config_set_to [ (("scheduler", "enabled"), VBool true);
                      (("switch", "enabled"), VBool false) ]
                    w (_handle_mode_command payload w))
  /\ (lower payload = "off" ->
      config_set_to [ (("scheduler", "enabled"), VBool false);
                      (("switch", "enabled"), VBool false) ]
                    w (_handle_mode_command payload w))
  /\ (lower payload <> "manual" -> lower payload <> "schedule" ->
      lower payload <> "off" ->
      _handle_mode_command payload w = w).
Proof.
  unfold _handle_mode_command.
  split; [| split; [| split ] ].
  - intros ->. solve_config_set_to.
  - intros ->. solve_config_set_to.
  - intros ->. solve_config_set_to.
  - intros H1 H2 H3.
    destruct (String.eqb_spec (lower payload) "manual"); [contradiction|].
    destruct (String.eqb_spec (lower payload) "schedule"); [contradiction|].
    destruct (String.eqb_spec (lower payload) "off"); [contradiction|].
    reflexivity.
Qed.

(** C5. [enable_plugin/set]: a payload without a colon changes nothing.  A
    payload [name:token], cut at its first colon, changes nothing when
    [name] is not "scheduler", "switch" or "loadmanagement"; otherwise it
    sets [name].enabled, to true exactly when [token] equals "true", "on",
    "1" or "enabled" up to case, to false otherwise. *)
Theorem enable_plugin_command_effect (payload : string) (w : world) :
  (~ In colon (list_ascii_of_string payload) ->
   _handle_enable_plugin_command payload w = w)
  /\ (forall name token : string,
        payload = name +:+ ":" +:+ token ->
        ~ In colon (list_ascii_of_string name) ->
        (~ In name ["scheduler"; "switch"; "loadmanagement"] ->
         _handle_enable_plugin_command payload w = w)
        /\ (In name ["scheduler"; "switch"; "loadmanagement"] ->
            exists on : bool,
              (on = true <->
               ci_one_of token ["true"; "on"; "1"; "enabled"])
              /\ config_set_to [ ((name, "enabled"), VBool on) ]
                   w (_handle_enable_plugin_command payload w))).
Proof.
  unfold _handle_enable_plugin_command. split.
  - intros Hn. rewrite <- has_colon_In in Hn.
    destruct (has_colon payload); [now contradiction Hn | reflexivity].
  - intros name token -> Hname.
    change (":" +:+ token) with (String colon token).
    rewrite has_colon_app, (split_colon_first _ _ Hname). cbn [negb].
    split.
    + intros Hnot. rewrite <- (mem_In name) in Hnot.
      change (mem name valid_plugins <> true) in Hnot.
      destruct (mem name valid_plugins); [now contradiction Hnot | reflexivity].
    + intros Hin. rewrite <- (mem_In name) in Hin.
      change (mem name valid_plugins = true) in Hin.
      rewrite Hin. cbn [negb].
      exists (mem (lower token) ["true"; "on"; "1"; "enabled"]). split.
      * apply mem_lower. repeat constructor.
      * clear Hin. solve_config_set_to.
Qed.


(** Whatever the payload, a limit in the shared state that is no number
    makes [min] raise, and the handler changes nothing. *)
Lemma current_limit_command_bad_limit (payload : string) (w : world) :
  num_of (stateDict_get "eo_overall_limit_current"
            (VInt MAX_CHARGING_CURRENT) w) = None ->
  _handle_current_limit_command MIN_CHARGING_CURRENT MAX_CHARGING_CURRENT
    py_float payload w = w.
Proof.
  intros H.
  unfold _handle_current_limit_command, current_limit_checked, min_int,
    lt_int.
  rewrite H.
  destruct (py_float payload) as [f|e]; cbn [rbind]; [| reflexivity].
  destruct (py_int f) as [m|e]; reflexivity.
Qed.

(** *** Connection callbacks *)

(** C7. [_on_disconnect] clears [connected] and [discovery_sent], whatever
    they were and whatever the return code. *)
Theorem on_disconnect_clears_flags (rc : Z) (w : world) :
  connected (_on_disconnect rc w) = false
  /\ discovery_sent (_on_disconnect rc w) = false.
Proof. split; reflexivity. Qed.

(** *** Discovery publisher *)

Lemma discovery_loop (prefix dev : string) (info : json)
    (ents : list (list (string * json))) (w : world) :
  outbox (fold_left (publish_discovery prefix dev info) ents w)
  = (outbox w ++ discovery_calls prefix dev info ents (faults w))%list
  /\ faults (fold_left (publish_discovery prefix dev info) ents w)
     = skipn (length ents) (faults w)
  /\ only_outbox_differs w
       (fold_left (publish_discovery prefix dev info) ents w).
Proof.
  revert w. induction ents as [|e ents IH]; intros w.
  - cbn [fold_left discovery_calls]. rewrite app_nil_r.
    repeat split.
  - cbn [fold_left discovery_calls].
    destruct (IH (publish_discovery prefix dev info w e)) as (Ho & Hf & Hr).
    rewrite Ho, Hf. split; [| split].
    + unfold publish_discovery, Client.publish. cbn [outbox faults].
      rewrite <- app_assoc. reflexivity.
    + unfold publish_discovery, Client.publish. cbn [faults length].
      destruct (faults w); [ now rewrite skipn_nil | reflexivity ].
    + unfold only_outbox_differs in Hr |- *.
      destruct Hr as (H1 & H2 & H3 & H4 & H5 & H6 & H7 & H8 & H9).
      rewrite H1, H2, H3, H4, H5, H6, H7, H8, H9. repeat split.
Qed.

Lemma discovery_calls_length (prefix dev : string) (info : json)
    (ents : list (list (string * json))) (fl : list bool) :
  length (discovery_calls prefix dev info ents fl) = length ents.
Proof.
  revert fl. induction ents as [|e ents IH]; intros fl;
    [reflexivity | cbn [discovery_calls length]; now rewrite IH].
Qed.

Lemma discovery_calls_content (prefix dev : string) (info : json)
    (ents : list (list (string * json))) (fl : list bool) :
  map call_content (discovery_calls prefix dev info ents fl)
  = map (fun e => (discovery_topic prefix dev e,
                   discovery_config dev info e, true)) ents.
Proof.
  revert fl. induction ents as [|e ents IH]; intros fl;
    [reflexivity | cbn [discovery_calls map]; now rewrite IH].
Qed.


Lemma discovery_calls_topic (prefix dev : string) (info : json)
    (ents : list (list (string * json))) (fl : list bool) :
  map p_topic (discovery_calls prefix dev info ents fl)
  = map (discovery_topic prefix dev) ents.
Proof.
  revert fl. induction ents as [|e ents IH]; intros fl;
    [reflexivity | cbn [discovery_calls map]; now rewrite IH].
Qed.

Lemma discovery_calls_retained (prefix dev : string) (info : json)
    (ents : list (list (string * json))) (fl : list bool) :
  Forall (fun c => p_retain c = true)
         (discovery_calls prefix dev info ents fl).
Proof.
  revert fl. induction ents as [|e ents IH]; intros fl;
    cbn [discovery_calls]; constructor; [reflexivity | apply IH].
Qed.

Lemma all_entities_topics (prefix dev : string) (max_allowed : value) :
  map (discovery_topic prefix dev)
      (all_entities MIN_CHARGING_CURRENT dev max_allowed)
  = map (config_topic prefix dev) entity_catalog.
Proof. reflexivity. Qed.

(** Every entity literal has the four keys that are read without a test. *)
Lemma all_entities_keys (dev : string) (max_allowed : value) :
  forallb (fun e =>
             forallb (fun k => match assoc k e with
                               | Some _ => true
                               | None => false
                               end)
                     ["name"; "object_id"; "state_topic"; "component"])
          (all_entities MIN_CHARGING_CURRENT dev max_allowed)
  = true.
Proof. reflexivity. Qed.

Lemma outbox_with_discovery_sent (b : bool) (w : world) :
  outbox (with_discovery_sent b w) = outbox w.
Proof. reflexivity. Qed.

Lemma discovery_sent_with_discovery_sent (b : bool) (w : world) :
  discovery_sent (with_discovery_sent b w) = b.
Proof. reflexivity. Qed.

(** [_send_discovery] past its guard and past [min]. *)
Lemma send_discovery_connected (w : world) (max_allowed : value) :
  connected w = true ->
  min_int MAX_CHARGING_CURRENT
    (stateDict_get "eo_overall_limit_current"
                   (VInt MAX_CHARGING_CURRENT) w) = Ok max_allowed ->
  _send_discovery MIN_CHARGING_CURRENT MAX_CHARGING_CURRENT w
  = Ok (with_discovery_sent true
          (fold_left
             (publish_discovery (get_config mqtt_discovery_prefix w)
                (get_config device_id w) (_get_device_info w))
             (all_entities MIN_CHARGING_CURRENT (get_config device_id w)
                max_allowed) w)).
Proof.
  intros Hc Hmin. unfold _send_discovery. rewrite Hc, Hmin. reflexivity.
Qed.

Lemma all_entities_length (dev : string) (max_allowed : value) :
  length (all_entities MIN_CHARGING_CURRENT dev max_allowed) = 15%nat.
Proof. reflexivity. Qed.



Lemma Ok_inj {A : Type} (a b : A) : Ok a = Ok b -> a = b.
Proof. now intros [= ->]. Qed.

Lemma with_discovery_sent_keeps (b : bool) (w : world) :
  connected (with_discovery_sent b w) = connected w
  /\ config (with_discovery_sent b w) = config w
  /\ stateDict (with_discovery_sent b w) = stateDict w.
Proof. repeat split. Qed.

(** [_send_discovery] leaves what it reads as it was. *)
Lemma send_discovery_keeps_inputs (w w' : world) :
  _send_discovery MIN_CHARGING_CURRENT MAX_CHARGING_CURRENT w = Ok w' ->
  connected w' = connected w /\ config w' = config w
  /\ stateDict w' = stateDict w.
Proof.
  destruct (connected w) eqn:Hc.
  - destruct (min_int MAX_CHARGING_CURRENT
                (stateDict_get "eo_overall_limit_current"
                   (VInt MAX_CHARGING_CURRENT) w)) as [m|e] eqn:Hm.
    + rewrite (send_discovery_connected w m Hc Hm).
      intros H. apply Ok_inj in H. subst w'.
      destruct (with_discovery_sent_keeps true
                  (fold_left
                     (publish_discovery (get_config mqtt_discovery_prefix w)
                        (get_config device_id w) (_get_device_info w))
                     (all_entities MIN_CHARGING_CURRENT
                        (get_config device_id w) m) w)) as (-> & -> & ->).
      pose proof (discovery_loop (get_config mqtt_discovery_prefix w)
                    (get_config device_id w) (_get_device_info w)
                    (all_entities MIN_CHARGING_CURRENT
                       (get_config device_id w) m) w) as (_ & _ & Hr).
      destruct Hr as (_ & H2 & H3 & _ & _ & _ & H7 & _).
      rewrite H2, H3, H7. auto.
    + unfold _send_discovery. rewrite Hc, Hm. discriminate.
  - unfold _send_discovery. rewrite Hc. intros [= <-]. auto.
Qed.


(** *** State publisher *)

Lemma bool_str_true (b : bool) :
  (if b then "true" else "false") = "true" <-> b = true.
Proof. destruct b; split; (reflexivity || discriminate). Qed.

Lemma bool_str_cases (b : bool) :
  (if b then "true" else "false") = "true"
  \/ (if b then "true" else "false") = "false".
Proof. destruct b; [left | right]; reflexivity. Qed.

Lemma in_ints_exists (v : value) (l : list Z) :
  in_ints v l = true <-> exists k : Z, In k l /\ eq_int v k = true.
Proof. unfold in_ints. apply existsb_exists. Qed.

Lemma current_mode_cases (w : world) :
  (flag_on "switch" w /\ ~ flag_on "scheduler" w ->
   current_mode w = "manual")
  /\ (flag_on "scheduler" w /\ ~ flag_on "switch" w ->
      current_mode w = "schedule")
  /\ ((flag_on "switch" w <-> flag_on "scheduler" w) ->
      current_mode w = "off").
Proof.
  unfold current_mode, flag_on.
  destruct (truthy (ConfigDB.get "switch" "enabled" (VBool false) w)),
    (truthy (ConfigDB.get "scheduler" "enabled" (VBool false) w));
    cbn [andb negb]; intuition congruence.
Qed.

Lemma publish_state_connected (stamp : time_reading) (w : world) :
  connected w = true ->
  _publish_state stamp w
  = Client.publish (state_topic w) (state_payload stamp w) false w.
Proof. intros H. unfold _publish_state. now rewrite H. Qed.

Lemma publish_state_disconnected (stamp : time_reading) (w : world) :
  connected w = false -> _publish_state stamp w = w.
Proof. intros H. unfold _publish_state. now rewrite H. Qed.

(** C3. In the state document, charging_active is "true" exactly when the
    charger state id equals one of 11..14 and vehicle_connected is "true"
    exactly when it equals one of 7..16, each being "false" otherwise; mode
    is "manual" when switch.enabled holds and scheduler.enabled does not,
    "schedule" when scheduler.enabled holds and switch.enabled does not,
    and "off" when both or neither hold.  An id of 12 gives charging_active
    "true", an id of 3 gives "false" for both.  When connected,
    [_publish_state] publishes this document, not retained, to
    openeo/{device_id}/state. *)
Theorem state_document_flags (stamp : time_reading) (w : world) :
  exists charging vehicle mode : string,
    field "charging_active" (state_payload stamp w) = Some (JStr charging)
    /\ field "vehicle_connected" (state_payload stamp w)
       = Some (JStr vehicle)
    /\ field "mode" (state_payload stamp w) = Some (JStr mode)
    /\ (charging = "true" \/ charging = "false")
    /\ (vehicle = "true" \/ vehicle = "false")
    /\ (charging = "true" <->
        exists k : Z,
          In k [11; 12; 13; 14] /\ eq_int (charger_state_id w) k = true)
    /\ (vehicle = "true" <->
        exists k : Z,
          In k [7; 8; 9; 10; 11; 12; 13; 14; 15; 16]
          /\ eq_int (charger_state_id w) k = true)
    /\ (forall n : Z,
          charger_state_id w = VInt n ->
          (charging = "true" <-> 11 <= n <= 14)
          /\ (vehicle = "true" <-> 7 <= n <= 16))
    /\ (charger_state_id w = VInt 12 -> charging = "true")
    /\ (charger_state_id w = VInt 3 ->
        vehicle = "false" /\ charging = "false")
    /\ (flag_on "switch" w /\ ~ flag_on "scheduler" w -> mode = "manual")
    /\ (flag_on "scheduler" w /\ ~ flag_on "switch" w -> mode = "schedule")
    /\ ((flag_on "switch" w <-> flag_on "scheduler" w) -> mode = "off")
    /\ (connected w = true ->
        exists c : publish_call,
          outbox (_publish_state stamp w) = (outbox w ++ [c])%list
          /\ p_topic c = "openeo/" +:+ get_config device_id w +:+ "/state"
          /\ p_payload c = state_payload stamp w
          /\ p_retain c = false).
Proof.
  exists (if in_ints (charger_state_id w) [11; 12; 13; 14]
          then "true" else "false").
  exists (if in_ints (charger_state_id w)
                     [7; 8; 9; 10; 11; 12; 13; 14; 15; 16]
          then "true" else "false").
  exists (current_mode w).
  split; [reflexivity|]. split; [reflexivity|]. split; [reflexivity|].
  split; [apply bool_str_cases|]. split; [apply bool_str_cases|].
  split; [rewrite bool_str_true; apply in_ints_exists|].
  split; [rewrite bool_str_true; apply in_ints_exists|].
  split.
  { intros n ->. rewrite !bool_str_true, !in_ints_int.
    cbn [In]. split; lia. }
  split; [intros ->; reflexivity|].
  split; [intros ->; split; reflexivity|].
  destruct (current_mode_cases w) as (Hm & Hs & Ho).
  split; [exact Hm|]. split; [exact Hs|]. split; [exact Ho|].
  intros Hc. rewrite (publish_state_connected stamp w Hc).
  eexists. split; [reflexivity|]. repeat split.
Qed.

(** *** Commands never publish; state is published only while connected *)

Lemma handle_switch_frame (payload : string) (w : world) :
  only_configDB_differs w (_handle_switch_command payload w).
Proof. repeat split. Qed.

Lemma handle_current_limit_frame (payload : string) (w : world) :
  only_configDB_differs w
    (_handle_current_limit_command MIN_CHARGING_CURRENT MAX_CHARGING_CURRENT
       py_float payload w).
Proof.
  unfold _handle_current_limit_command.
  destruct (current_limit_checked _ _ _ _ _) as [[n|]|e]; repeat split.
Qed.

Lemma handle_mode_frame (payload : string) (w : world) :
  only_configDB_differs w (_handle_mode_command payload w).
Proof.
  unfold _handle_mode_command.
  destruct (String.eqb _ _); [repeat split|].
  destruct (String.eqb _ _); [repeat split|].
  destruct (String.eqb _ _); repeat split.
Qed.

Lemma handle_enable_plugin_frame (payload : string) (w : world) :
  only_configDB_differs w (_handle_enable_plugin_command payload w).
Proof.
  unfold _handle_enable_plugin_command.
  destruct (has_colon payload); cbn [negb]; [| repeat split].
  destruct (split_colon payload) as [[name tok]|]; [| repeat split].
  destruct (mem name valid_plugins); repeat split.
Qed.

Lemma on_message_frame (msg : message) (w : world) :
  only_configDB_differs w
    (_on_message MIN_CHARGING_CURRENT MAX_CHARGING_CURRENT py_float
       decode_strip msg w).
Proof.
  unfold _on_message.
  destruct (decode_strip (payload msg)) as [p|e];
    [| apply only_configDB_differs_refl].
  destruct (String.eqb _ _); [apply handle_switch_frame|].
  destruct (String.eqb _ _); [apply handle_current_limit_frame|].
  destruct (String.eqb _ _); [apply handle_mode_frame|].
  destruct (String.eqb _ _); [apply handle_enable_plugin_frame|].
  apply only_configDB_differs_refl.
Qed.

Lemma on_connect_outbox (rc : Z) (w : world) :
  outbox (_on_connect rc w) = outbox w.
Proof. unfold _on_connect. destruct (rc =? 0); reflexivity. Qed.

Lemma run_discovery_thread_disconnected (w : world) :
  connected w = false -> outbox (run_discovery_thread MIN_CHARGING_CURRENT
                                   MAX_CHARGING_CURRENT w) = outbox w.
Proof.
  intros H. unfold run_discovery_thread.
  destruct (spawned w) as [|n]; [reflexivity|].
  unfold _send_discovery. cbn [connected with_spawned]. rewrite H.
  reflexivity.
Qed.

Lemma poll_disconnected (current_time stamp : time_reading) (w : world) :
  connected w = false ->
  outbox (fst (poll current_time stamp w)) = outbox w.
Proof.
  intros H. unfold poll.
  destruct (negb (MQTT_AVAILABLE w) || negb (get_config enabled w));
    [reflexivity|].
  rewrite H. cbn [andb].
  destruct (interval_elapsed current_time w); [| reflexivity].
  rewrite (publish_state_disconnected stamp w H). reflexivity.
Qed.

Lemma step_disconnected_outbox (ev : event) (w : world) :
  connected w = false ->
  outbox (step MIN_CHARGING_CURRENT MAX_CHARGING_CURRENT py_float
            decode_strip ev w) = outbox w.
Proof.
  intros H. destruct ev as [rc|rc|msg|current_time stamp|]; cbn [step].
  - apply on_connect_outbox.
  - reflexivity.
  - apply (on_message_frame msg w).
  - apply poll_disconnected, H.
  - apply run_discovery_thread_disconnected, H.
Qed.

(** C8. While [connected] is false the state publisher returns without
    publishing, and no event at all (callback, poll or discovery thread) adds
    a publish call; a command message, whatever its topic and payload,
    changes nothing but the configuration store, so it never publishes. *)
Theorem publish_only_while_connected :
  (forall (stamp : time_reading) (w : world),
     connected w = false -> _publish_state stamp w = w)
  /\ (forall (ev : event) (w : world),
        connected w = false ->
        outbox (step MIN_CHARGING_CURRENT MAX_CHARGING_CURRENT py_float
                  decode_strip ev w) = outbox w)
  /\ (forall (msg : message) (w : world),
        only_configDB_differs w
          (_on_message MIN_CHARGING_CURRENT MAX_CHARGING_CURRENT py_float
             decode_strip msg w)
        /\ outbox (_on_message MIN_CHARGING_CURRENT MAX_CHARGING_CURRENT
                     py_float decode_strip msg w) = outbox w).
Proof.
  split; [exact publish_state_disconnected|].
  split; [exact step_disconnected_outbox|].
  intros msg w. split; [apply on_message_frame|].
  apply (on_message_frame msg w).
Qed.

(** An event other than a successful connect leaves a disconnected plugin
    disconnected. *)
Lemma step_stays_disconnected (ev : event) (w : world) :
  connected w = false ->
  ev <> EConnect 0 ->
  connected (step MIN_CHARGING_CURRENT MAX_CHARGING_CURRENT py_float
               decode_strip ev w) = false.
Proof.
  intros H Hev. destruct ev as [rc|rc|msg|current_time stamp|]; cbn [step].
  - unfold _on_connect. destruct (Z.eqb_spec rc 0) as [->|_];
      [now contradiction Hev | exact H].
  - reflexivity.
  - destruct (on_message_frame msg w) as (_ & _ & Hc & _).
    now rewrite Hc.
  - unfold poll.
    destruct (negb (MQTT_AVAILABLE w) || negb (get_config enabled w));
      [exact H|].
    rewrite H. cbn [andb fst].
    destruct (interval_elapsed current_time w); [| exact H].
    rewrite (publish_state_disconnected stamp w H). exact H.
  - unfold run_discovery_thread.
    destruct (spawned w) as [|n]; [exact H|].
    unfold _send_discovery. cbn [connected with_spawned]. rewrite H.
    exact H.
Qed.

(** Before the first successful connect nothing is ever published. *)
Lemma run_before_connect (evs : list event) (w : world) :
  connected w = false ->
  Forall (fun ev => ev <> EConnect 0) evs ->
  outbox (run MIN_CHARGING_CURRENT MAX_CHARGING_CURRENT py_float
            decode_strip evs w) = outbox w.
Proof.
  intros H Hevs. revert w H.
  induction Hevs as [|ev evs Hev _ IH]; intros w H; [reflexivity|].
  unfold run in *. cbn [fold_left].
  rewrite IH by (apply step_stays_disconnected; assumption).
  apply step_disconnected_outbox, H.
Qed.

(** *** Poll hook *)

Lemma poll_elapsed (current_time stamp : time_reading) (w : world) :
  MQTT_AVAILABLE w = true ->
  get_config enabled w = true ->
  interval_elapsed current_time w = true ->
  fst (poll current_time stamp w)
  = with_last_publish (time_float current_time)
      (_publish_state stamp
         (if connected w && negb (discovery_sent w)
          then start_discovery_thread w else w)).
Proof.
  intros Ha He Hi. unfold poll. rewrite Ha, He. cbn [negb orb].
  replace (interval_elapsed current_time
             (if connected w && negb (discovery_sent w)
              then start_discovery_thread w else w))
    with true; [reflexivity|].
  rewrite <- Hi. now destruct (connected w && negb (discovery_sent w)).
Qed.

Lemma poll_not_elapsed (current_time stamp : time_reading) (w : world) :
  interval_elapsed current_time w = false ->
  outbox (fst (poll current_time stamp w)) = outbox w.
Proof.
  intros Hi. unfold poll.
  destruct (negb (MQTT_AVAILABLE w) || negb (get_config enabled w));
    [reflexivity|].
  replace (interval_elapsed current_time
             (if connected w && negb (discovery_sent w)
              then start_discovery_thread w else w))
    with false.
  - now destruct (connected w && negb (discovery_sent w)).
  - rewrite <- Hi. now destruct (connected w && negb (discovery_sent w)).
Qed.

(** C10. A poll of the enabled module, with the MQTT library available, at
    a time where the interval since [last_publish] has elapsed sets
    [last_publish] to that time, connected or not.  When not connected it
    publishes nothing; and if the connection then comes up, a later poll
    publishes no state as long as the interval counted from that time has
    not elapsed. *)
Theorem poll_advances_timer_when_disconnected
    (current_time stamp : time_reading) (w : world) :
  MQTT_AVAILABLE w = true ->
  get_config enabled w = true ->
  interval_elapsed current_time w = true ->
  last_publish (fst (poll current_time stamp w)) = time_float current_time
  /\ (connected w = false ->
      outbox (fst (poll current_time stamp w)) = outbox w
      /\ forall (later stamp' : time_reading) (w1 : world),
           w1 = _on_connect 0 (fst (poll current_time stamp w)) ->
           connected w1 = true
           /\ last_publish w1 = time_float current_time
           /\ (interval_elapsed later w1 = false ->
               outbox (fst (poll later stamp' w1)) = outbox w)).
Proof.
  intros Ha He Hi. rewrite (poll_elapsed current_time stamp w Ha He Hi).
  split; [reflexivity|].
  intros Hc. rewrite Hc. cbn [andb].
  rewrite (publish_state_disconnected stamp w Hc).
  split; [reflexivity|].
  intros later stamp' w1 ->.
  split; [reflexivity|]. split; [reflexivity|].
  intros Hl. rewrite (poll_not_elapsed later stamp' _ Hl). reflexivity.
Qed.

End Properties.

(** ** The model run on the inputs the specification lists *)

Module Runs.
Import Examples.

Example switch_on_lowercase :
  configDB (_handle_switch_command "on" w0) !! ("switch", "on")
  = Some (VBool true).
Proof. reflexivity. Qed.

Example switch_other_payload :
  configDB (_handle_switch_command "maybe" w0) !! ("switch", "on")
  = Some (VBool false)
  /\ configDB (_handle_switch_command "maybe" w0) !! ("switch", "enabled")
     = Some (VBool true)
  /\ configDB (_handle_switch_command "maybe" w0) !! ("scheduler", "enabled")
     = Some (VBool false).
Proof. repeat split. Qed.

Example current_limit_abc :
  _handle_current_limit_command 6 32 digits_float "abc" w0 = w0.
Proof. reflexivity. Qed.

(** An overall limit of 16 in the shared state lowers the upper bound. *)
Example current_limit_above_overall_limit :
  _handle_current_limit_command 6 32 digits_float "20"
    (with_state "eo_overall_limit_current" (VInt 16))
  = with_state "eo_overall_limit_current" (VInt 16).
Proof. reflexivity. Qed.

Example mode_schedule :
  configDB (_handle_mode_command "schedule" w0) !! ("scheduler", "enabled")
  = Some (VBool true)
  /\ configDB (_handle_mode_command "schedule" w0) !! ("switch", "enabled")
     = Some (VBool false).
Proof. repeat split. Qed.

Example mode_bogus : _handle_mode_command "bogus" w0 = w0.
Proof. reflexivity. Qed.

Example enable_plugin_scheduler :
  configDB (_handle_enable_plugin_command "scheduler:true" w0)
    !! ("scheduler", "enabled") = Some (VBool true).
Proof. reflexivity. Qed.

Example enable_plugin_hacker :
  _handle_enable_plugin_command "hacker:true" w0 = w0.
Proof. reflexivity. Qed.

Example enable_plugin_no_colon :
  _handle_enable_plugin_command "switch" w0 = w0.
Proof. reflexivity. Qed.

Example state_id_12 :
  field "charging_active"
        (state_payload t10 (with_state "eo_charger_state_id" (VInt 12)))
  = Some (JStr "true").
Proof. reflexivity. Qed.

Example state_id_3 :
  field "vehicle_connected"
        (state_payload t10 (with_state "eo_charger_state_id" (VInt 3)))
  = Some (JStr "false")
  /\ field "charging_active"
           (state_payload t10 (with_state "eo_charger_state_id" (VInt 3)))
     = Some (JStr "false").
Proof. split; reflexivity. Qed.

(** A float id equal to 12 counts as 12, as [12.0 in [11, 12, 13, 14]]
    does. *)
Example state_id_float_12 :
  field "charging_active"
        (state_payload t10
           (with_state "eo_charger_state_id"
                       (VFloat (S754_finite false 3 2))))
  = Some (JStr "true").
Proof. reflexivity. Qed.

(** A command on its topic, through [_on_message]. *)
Example message_mode_off :
  configDB
    (_on_message 6 32 digits_float plain_decode
       {| topic := "openeo/openeo_charger_1/command/mode/set";
          payload := "OFF" |} w0)
    !! ("switch", "enabled") = Some (VBool false).
Proof. reflexivity. Qed.

(** The poll at 15 s, 5 s after the one at 10 s, publishes the state. *)
Example poll_after_interval :
  map p_topic
      (outbox (fst (poll t15 t15 (_on_connect 0 (fst (poll t10 t10 w0))))))
  = ["openeo/openeo_charger_1/state"].
Proof. reflexivity. Qed.

(** A disabled module polls to nothing. *)
Example poll_disabled (w : world) :
  get_config enabled w = false -> poll t10 t10 w = (w, 0).
Proof. intros H. unfold poll. rewrite H. now rewrite orb_true_r. Qed.

End Runs.

(** ** The properties at concrete inputs *)

Module Witnesses.
Import Examples PyVal.




(** Interval 5 s.  A poll at 10 s while disconnected publishes nothing and
    moves [last_publish] to 10 s; the connection comes up; the poll at 12 s
    still publishes nothing. *)
Lemma poll_advances_timer_when_disconnected_witness :
  interval_elapsed t10 w0 = true
  /\ connected w0 = false
  /\ last_publish (fst (poll t10 t10 w0)) = time_float t10
  /\ outbox (fst (poll t10 t10 w0)) = []
  /\ interval_elapsed t12 (_on_connect 0 (fst (poll t10 t10 w0))) = false
  /\ outbox (fst (poll t12 t12 (_on_connect 0 (fst (poll t10 t10 w0))))) = [].
Proof.
  destruct (poll_advances_timer_when_disconnected t10 t10 w0
              eq_refl eq_refl eq_refl) as (Hlast & Hrest).
  destruct (Hrest eq_refl) as (Hout & Hlater).
  destruct (Hlater t12 t12 _ eq_refl) as (_ & _ & Hquiet).
  split; [reflexivity|]. split; [reflexivity|].
  split; [exact Hlast|]. split; [exact Hout|].
  split; [reflexivity|]. exact (Hquiet eq_refl).
Defined.

(** "Schedule" selects the schedule mode, "bogus" changes nothing. *)
Lemma mode_command_effect_witness :
  config_set_to [ (("scheduler", "enabled"), VBool true);
                  (("switch", "enabled"), VBool false) ]
                w0 (_handle_mode_command "Schedule" w0)
  /\ _handle_mode_command "bogus" w0 = w0.
Proof.
  destruct (mode_command_effect "Schedule" w0) as (_ & Hsched & _).
  destruct (mode_command_effect "bogus" w0) as (_ & _ & _ & Hother).
  split.
  - apply Hsched. reflexivity.
  - apply Hother; intros E; vm_compute in E; discriminate E.
Defined.

(** "scheduler:TRUE" enables the scheduler; "hacker:true" and "switch" change
    nothing. *)
Lemma enable_plugin_command_effect_witness :
  (exists on : bool,
     on = true
     /\ config_set_to [ (("scheduler", "enabled"), VBool on) ]
          w0 (_handle_enable_plugin_command "scheduler:TRUE" w0))
  /\ _handle_enable_plugin_command "hacker:true" w0 = w0
  /\ _handle_enable_plugin_command "switch" w0 = w0.
Proof.
  split; [| split].
  - destruct (enable_plugin_command_effect "scheduler:TRUE" w0) as (_ & H).
    destruct (H "scheduler" "TRUE" eq_refl) as (_ & Hin).
    + vm_compute. intuition discriminate.
    + destruct Hin as (on & Hon & Hset).
      * vm_compute. auto.
      * exists on. split; [| exact Hset].
        apply Hon. left. vm_compute. auto 20.
  - destruct (enable_plugin_command_effect "hacker:true" w0) as (_ & H).
    destruct (H "hacker" "true" eq_refl) as (Hout & _).
    + vm_compute. intuition discriminate.
    + apply Hout. vm_compute. intuition discriminate.
  - destruct (enable_plugin_command_effect "switch" w0) as (H & _).
    apply H. vm_compute. intuition discriminate.
Defined.

(** A connected plugin whose charger reports state 12. *)
Lemma state_document_flags_witness :
  exists charging : string,
    field "charging_active"
          (state_payload t10
             (with_connected true (with_state "eo_charger_state_id"
                                              (VInt 12))))
    = Some (JStr charging)
    /\ charging = "true".
Proof.
  destruct (state_document_flags t10
              (with_connected true
                 (with_state "eo_charger_state_id" (VInt 12))))
    as (charging & vehicle & mode & Hc & _ & _ & _ & _ & _ & _ & _ & H12 & _).
  exists charging. split; [exact Hc|]. apply H12. reflexivity.
Defined.

(** The state publisher on a plugin that never connected. *)
Lemma publish_only_while_connected_witness :
  connected w0 = false /\ _publish_state t10 w0 = w0.
Proof.
  split; [reflexivity|].
  apply (proj1 (publish_only_while_connected 6 32 digits_float plain_decode)).
  reflexivity.
Defined.

End Witnesses.
(** * Further properties *)

(** ** Comparisons across [int] and [float] *)

Module PyNumFacts.
Import PyNum PyVal.

Ltac order_of_compare :=
  repeat match goal with
    | H : Some _ = Some _ |- _ => injection H as H
    | H : (_ ?= _) = Lt |- _ => rewrite Z.compare_lt_iff in H
    | H : (_ ?= _) = Eq |- _ => rewrite Z.compare_eq_iff in H
    | H : (_ ?= _) = Gt |- _ => rewrite Z.compare_gt_iff in H
    end.

Lemma Zfloat_compare_le_gt (n m : Z) (f : spec_float) :
  (Zfloat_compare n f = Some Lt \/ Zfloat_compare n f = Some Eq) ->
  Zfloat_compare m f = Some Gt ->
  n < m.
Proof.
  destruct f as [s|s| |s mm e]; cbn [Zfloat_compare].
  - intros [H|H] G; order_of_compare; lia.
  - destruct s; intros [H|H] G; discriminate.
  - intros [H|H]; discriminate.
  - destruct (0 <=? e) eqn:He.
    + intros [H|H] G; order_of_compare; lia.
    + apply Z.leb_gt in He.
      assert (Hp : 0 < 2 ^ (- e)) by (apply Z.pow_pos_nonneg; lia).
      intros [H|H] G; order_of_compare; nia.
Qed.

(** [n <= a] and [a < m] give [n < m], whatever number [a] is. *)
Lemma num_le_lt_trans (n m : Z) (a : num) :
  (num_compare (NInt n) a = Some Lt \/ num_compare (NInt n) a = Some Eq) ->
  num_compare a (NInt m) = Some Lt ->
  n < m.
Proof.
  destruct a as [x|f]; cbn [num_compare].
  - intros [H|H] G; order_of_compare; lia.
  - intros H G. apply (Zfloat_compare_le_gt n m f H).
    destruct (Zfloat_compare m f) as [[ | | ]|]; cbn in G;
      (discriminate || reflexivity).
Qed.

(** A binary64 number minus itself is +0.0. *)
Lemma binary64_sub_diag (s : bool) (m : positive) (e : Z) :
  binary64_sub (S754_finite s m e) (S754_finite s m e) = S754_zero false.
Proof.
  unfold binary64_sub, SFsub. cbv zeta. now rewrite Z.sub_diag.
Qed.

End PyNumFacts.

(** ** Strings and worlds *)

Lemma append_inv_head (a b c : string) : a +:+ b = a +:+ c -> b = c.
Proof.
  induction a as [|x a IH]; cbn [String.append]; intros H; [exact H|].
  injection H as H. exact (IH H).
Qed.

Lemma world_eq (w w' : world) :
  MQTT_AVAILABLE w = MQTT_AVAILABLE w' -> config w = config w' ->
  connected w = connected w' -> last_publish w = last_publish w' ->
  discovery_sent w = discovery_sent w' -> configDB w = configDB w' ->
  stateDict w = stateDict w' -> outbox w = outbox w' ->
  subscriptions w = subscriptions w' -> faults w = faults w' ->
  spawned w = spawned w' -> w = w'.
Proof.
  destruct w, w'; cbn. intros; subst; reflexivity.
Qed.

(** Two worlds that differ at most in the configuration store, and hold
    the same store, are the same world. *)
Lemma only_configDB_differs_eq (w w1 w2 : world) :
  only_configDB_differs w w1 -> only_configDB_differs w w2 ->
  configDB w1 = configDB w2 -> w1 = w2.
Proof.
  unfold only_configDB_differs.
  intros (A1 & A2 & A3 & A4 & A5 & A6 & A7 & A8 & A9 & A10)
         (B1 & B2 & B3 & B4 & B5 & B6 & B7 & B8 & B9 & B10) Hdb.
  apply world_eq; congruence.
Qed.

Lemma plugin_names_no_colon :
  ~ In PyStr.colon (list_ascii_of_string "scheduler")
  /\ ~ In PyStr.colon (list_ascii_of_string "switch").
Proof. split; vm_compute; intuition discriminate. Qed.

(** Settles an equation between two stores built by inserts. *)
Ltac solve_store_eq :=
  apply map_eq; intros ?;
  repeat (rewrite lookup_insert; case_decide);
  first [ reflexivity
        | contradiction
        | match goal with
          | H : ?a = ?i, H' : ?b = ?i |- _ =>
              rewrite <- H in H'; discriminate H'
          end ].

(** ** The catalog *)

Lemma NoDup_map_inj_on {A B : Type} (f : A -> B) (l : list A) :
  (forall x y, In x l -> In y l -> f x = f y -> x = y) ->
  NoDup l -> NoDup (map f l).
Proof.
  intros Hinj Hnd. induction Hnd as [|a l Ha Hnd IH]; cbn [map].
  - constructor.
  - constructor.
    + rewrite list_elem_of_In. intros Hin.
      apply in_map_iff in Hin as (y & Hy & Hin).
      assert (y = a) by (apply Hinj; [now right | now left | exact Hy]).
      subst y. apply Ha. now apply list_elem_of_In.
    + apply IH. intros x y Hx Hy. apply Hinj; now right.
Qed.

Lemma entity_catalog_NoDup : NoDup entity_catalog.
Proof.
  unfold entity_catalog.
  repeat (constructor;
          [rewrite list_elem_of_In; cbn [In]; intuition discriminate|]).
  constructor.
Qed.

(** Strips equal heads off an equation between two strings. *)
Ltac strip_heads H :=
  repeat first [ discriminate H
               | apply append_inv_head in H
               | injection H as H ].

Lemma object_ids_distinct (x y : string * string) :
  In x entity_catalog -> In y entity_catalog -> snd x = snd y -> x = y.
Proof.
  unfold entity_catalog. cbn [In]. intros Hx Hy.
  repeat (destruct Hx as [<-|Hx]; [| ]); try contradiction;
    repeat (destruct Hy as [<-|Hy]; [| ]); try contradiction;
    cbn [snd]; intros H; first [reflexivity | discriminate H].
Qed.

Lemma config_topic_inj_on (prefix dev : string) (x y : string * string) :
  In x entity_catalog -> In y entity_catalog ->
  config_topic prefix dev x = config_topic prefix dev y -> x = y.
Proof.
  unfold config_topic. intros Hx Hy H. apply append_inv_head in H.
  revert H. unfold entity_catalog in Hx, Hy. cbn [In] in Hx, Hy.
  repeat (destruct Hx as [<-|Hx]; [| ]); try contradiction;
    repeat (destruct Hy as [<-|Hy]; [| ]); try contradiction;
    cbn [fst snd String.append]; intros H;
    first [reflexivity | exfalso; strip_heads H].
Qed.

(** *** No publish on a subscribed topic *)

Lemma append_nonempty (a c : string) : c <> "" -> a +:+ c <> "".
Proof.
  intros Hc H. destruct a as [|x a]; [exact (Hc H)|].
  change (String x (a +:+ c) = "") in H. discriminate H.
Qed.

Lemma last_char_app (a c : string) :
  c <> "" -> last_char (a +:+ c) = last_char c.
Proof.
  intros Hc. induction a as [|x a IH]; [reflexivity|].
  change (String x a +:+ c) with (String x (a +:+ c)).
  destruct (a +:+ c) as [|y s] eqn:E.
  - exfalso. now apply (append_nonempty a c).
  - rewrite <- IH. reflexivity.
Qed.

Lemma config_topic_last_char (prefix dev : string) (e : string * string) :
  last_char (config_topic prefix dev e) = Some "g"%char.
Proof.
  unfold config_topic.
  repeat (rewrite last_char_app;
          [| repeat (apply append_nonempty); discriminate]).
  reflexivity.
Qed.

Lemma command_topics_last_char (dev t : string) :
  In t (command_topics dev) -> last_char t = Some "t"%char.
Proof.
  unfold command_topics. cbn [In].
  intros [<-|[<-|[<-|[<-|[]]]]];
    rewrite !last_char_app by (try apply append_nonempty; discriminate);
    reflexivity.
Qed.

Lemma well_addressed_not_command (cfg : PluginConfig) (c : publish_call) :
  well_addressed cfg c -> ~ In (p_topic c) (command_topics (device_id cfg)).
Proof.
  intros [(_ & e & _ & Ht) | (_ & Ht)] Hin.
  - apply command_topics_last_char in Hin.
    rewrite Ht, config_topic_last_char in Hin. discriminate Hin.
  - rewrite Ht in Hin. unfold command_topics in Hin. cbn [In] in Hin.
    destruct Hin as [H|[H|[H|[H|[]]]]];
      apply append_inv_head, append_inv_head in H; discriminate H.
Qed.

Section MoreProperties.

Variable MIN_CHARGING_CURRENT MAX_CHARGING_CURRENT : Z.
Variable py_float : string -> result spec_float.
Variable decode_strip : string -> result string.

#[local] Set Default Proof Using "Type".

Import PyStr PyNum PyVal PyStrFacts PyValFacts PyNumFacts.

(** *** The current limit never leaves the charger's range *)

(** Whatever the payload and whatever the shared state holds as overall
    limit (an integer, a float, a boolean, anything else, or nothing),
    [_handle_current_limit_command] either leaves the world as it is or
    writes an amps value that lies between MIN_CHARGING_CURRENT and
    MAX_CHARGING_CURRENT. *)
Theorem current_limit_within_charger_range (payload : string) (w : world) :
  _handle_current_limit_command MIN_CHARGING_CURRENT MAX_CHARGING_CURRENT
    py_float payload w = w
  \/ exists n : Z,
       MIN_CHARGING_CURRENT <= n <= MAX_CHARGING_CURRENT
       /\ truncated_amps py_float payload = Some n
       /\ config_set_to [ (("switch", "amps"), VInt n);
                          (("switch", "enabled"), VBool true);
                          (("scheduler", "enabled"), VBool false) ]
            w (_handle_current_limit_command MIN_CHARGING_CURRENT
                 MAX_CHARGING_CURRENT py_float payload w).
Proof.
  unfold _handle_current_limit_command, current_limit_checked,
    truncated_amps.
  destruct (py_float payload) as [f|e]; cbn [rbind]; [| now left].
  destruct (py_int f) as [n|e]; cbn [rbind]; [| now left].
  unfold min_int, lt_int.
  destruct (num_of (stateDict_get "eo_overall_limit_current"
                      (VInt MAX_CHARGING_CURRENT) w)) as [a|] eqn:Ha;
    cbn [rbind]; [| now left].
  destruct (Z.leb_spec MIN_CHARGING_CURRENT n) as [Hlo|Hlo];
    [| destruct (num_compare a (NInt MAX_CHARGING_CURRENT)) as [[ | | ]|];
       now left].
  destruct (num_compare a (NInt MAX_CHARGING_CURRENT)) as [c|] eqn:Hc.
  2: { rewrite int_le_int. cbn [rbind].
       destruct (Z.leb_spec n MAX_CHARGING_CURRENT); [| now left].
       right. exists n. split; [lia|]. split; [reflexivity|].
       solve_config_set_to. }
  destruct c.
  2: { unfold int_le. rewrite Ha. cbn [rbind].
       destruct (num_compare (NInt n) a) as [[ | | ]|] eqn:Hn;
         try now left.
       - right. exists n. split.
         + pose proof (num_le_lt_trans n MAX_CHARGING_CURRENT a
                         (or_intror Hn) Hc). lia.
         + split; [reflexivity|]. solve_config_set_to.
       - right. exists n. split.
         + pose proof (num_le_lt_trans n MAX_CHARGING_CURRENT a
                         (or_introl Hn) Hc). lia.
         + split; [reflexivity|]. solve_config_set_to. }
  all: rewrite int_le_int; cbn [rbind];
    destruct (Z.leb_spec n MAX_CHARGING_CURRENT); [| now left];
    right; exists n; (split; [lia|]); (split; [reflexivity|]);
    solve_config_set_to.
Qed.

(** *** A command delivered twice *)

Lemma current_limit_checked_frame (payload : string) (w w' : world) :
  stateDict w' = stateDict w ->
  current_limit_checked MIN_CHARGING_CURRENT MAX_CHARGING_CURRENT py_float
    payload w'
  = current_limit_checked MIN_CHARGING_CURRENT MAX_CHARGING_CURRENT py_float
      payload w.
Proof.
  intros H. unfold current_limit_checked, stateDict_get. now rewrite H.
Qed.

Lemma handle_switch_twice (payload : string) (w : world) :
  _handle_switch_command payload (_handle_switch_command payload w)
  = _handle_switch_command payload w.
Proof.
  apply world_eq; try reflexivity.
  unfold _handle_switch_command, ConfigDB.set. cbn [configDB with_configDB].
  solve_store_eq.
Qed.

Lemma handle_current_limit_twice (payload : string) (w : world) :
  _handle_current_limit_command MIN_CHARGING_CURRENT MAX_CHARGING_CURRENT
    py_float payload
    (_handle_current_limit_command MIN_CHARGING_CURRENT MAX_CHARGING_CURRENT
       py_float payload w)
  = _handle_current_limit_command MIN_CHARGING_CURRENT MAX_CHARGING_CURRENT
      py_float payload w.
Proof.
  unfold _handle_current_limit_command at 1.
  rewrite (current_limit_checked_frame payload w).
  2: { apply (handle_current_limit_frame MIN_CHARGING_CURRENT
                MAX_CHARGING_CURRENT py_float payload w). }
  unfold _handle_current_limit_command.
  destruct (current_limit_checked _ _ _ _ _) as [[n|]|e]; try reflexivity.
  apply world_eq; try reflexivity.
  unfold ConfigDB.set. cbn [configDB with_configDB]. solve_store_eq.
Qed.

Lemma handle_mode_twice (payload : string) (w : world) :
  _handle_mode_command payload (_handle_mode_command payload w)
  = _handle_mode_command payload w.
Proof.
  unfold _handle_mode_command.
  destruct (String.eqb (lower payload) "manual");
    [| destruct (String.eqb (lower payload) "schedule");
       [| destruct (String.eqb (lower payload) "off"); [| reflexivity]]].
  all: apply world_eq; try reflexivity;
    unfold ConfigDB.set; cbn [configDB with_configDB]; solve_store_eq.
Qed.

Lemma handle_enable_plugin_twice (payload : string) (w : world) :
  _handle_enable_plugin_command payload
    (_handle_enable_plugin_command payload w)
  = _handle_enable_plugin_command payload w.
Proof.
  unfold _handle_enable_plugin_command.
  destruct (has_colon payload); cbn [negb]; [| reflexivity].
  destruct (split_colon payload) as [[name tok]|]; [| reflexivity].
  destruct (mem name valid_plugins); cbn [negb]; [| reflexivity].
  apply world_eq; try reflexivity.
  unfold ConfigDB.set. cbn [configDB with_configDB]. solve_store_eq.
Qed.

(** A message handled a second time changes nothing more: every command is
    absolute, none toggles or accumulates. *)
Theorem on_message_idempotent (msg : message) (w : world) :
  _on_message MIN_CHARGING_CURRENT MAX_CHARGING_CURRENT py_float
    decode_strip msg
    (_on_message MIN_CHARGING_CURRENT MAX_CHARGING_CURRENT py_float
       decode_strip msg w)
  = _on_message MIN_CHARGING_CURRENT MAX_CHARGING_CURRENT py_float
      decode_strip msg w.
Proof.
  assert (Hcfg : get_config device_id
                   (_on_message MIN_CHARGING_CURRENT MAX_CHARGING_CURRENT
                      py_float decode_strip msg w)
                 = get_config device_id w).
  { unfold get_config.
    destruct (on_message_frame MIN_CHARGING_CURRENT MAX_CHARGING_CURRENT
                py_float decode_strip msg w) as (_ & -> & _).
    reflexivity. }
  unfold _on_message at 1. rewrite Hcfg. clear Hcfg.
  unfold _on_message.
  destruct (decode_strip (payload msg)) as [p|e]; [| reflexivity].
  destruct (String.eqb _ _); [apply handle_switch_twice|].
  destruct (String.eqb _ _); [apply handle_current_limit_twice|].
  destruct (String.eqb _ _); [apply handle_mode_twice|].
  destruct (String.eqb _ _); [apply handle_enable_plugin_twice|].
  reflexivity.
Qed.

(** *** Dispatch by topic *)

Lemma command_topics_differ (dev a b : string) :
  a <> b ->
  String.eqb ("openeo/" +:+ dev +:+ a) ("openeo/" +:+ dev +:+ b) = false.
Proof.
  intros Hab. apply String.eqb_neq. intros H.
  apply append_inv_head, append_inv_head in H. contradiction.
Qed.

(** A message whose payload decodes goes to the handler of its topic, the
    four command topics of this device being told apart whatever the device
    id; a message on any other topic, and a message whose payload does not
    decode, leave the world as it is. *)
Theorem on_message_dispatch (msg : message) (w : world) :
  (forall e : exn,
     decode_strip (payload msg) = Raise e ->
     _on_message MIN_CHARGING_CURRENT MAX_CHARGING_CURRENT py_float
       decode_strip msg w = w)
  /\ (forall p : string,
        decode_strip (payload msg) = Ok p ->
        (topic msg
         = "openeo/" +:+ get_config device_id w +:+ "/command/switch/set" ->
         _on_message MIN_CHARGING_CURRENT MAX_CHARGING_CURRENT py_float
           decode_strip msg w
         = _handle_switch_command p w)
        /\ (topic msg
            = "openeo/" +:+ get_config device_id w
                +:+ "/command/current_limit/set" ->
            _on_message MIN_CHARGING_CURRENT MAX_CHARGING_CURRENT py_float
              decode_strip msg w
            = _handle_current_limit_command MIN_CHARGING_CURRENT
                MAX_CHARGING_CURRENT py_float p w)
        /\ (topic msg
            = "openeo/" +:+ get_config device_id w +:+ "/command/mode/set" ->
            _on_message MIN_CHARGING_CURRENT MAX_CHARGING_CURRENT py_float
              decode_strip msg w
            = _handle_mode_command p w)
        /\ (topic msg
            = "openeo/" +:+ get_config device_id w
                +:+ "/command/enable_plugin/set" ->
            _on_message MIN_CHARGING_CURRENT MAX_CHARGING_CURRENT py_float
              decode_strip msg w
            = _handle_enable_plugin_command p w)
        /\ (~ In (topic msg) (command_topics (get_config device_id w)) ->
            _on_message MIN_CHARGING_CURRENT MAX_CHARGING_CURRENT py_float
              decode_strip msg w = w)).
Proof.
  split.
  - intros e He. unfold _on_message. now rewrite He.
  - intros p Hp. unfold _on_message. rewrite Hp.
    split; [| split; [| split; [| split]]].
    + intros ->. now rewrite String.eqb_refl.
    + intros ->.
      rewrite command_topics_differ by discriminate.
      now rewrite String.eqb_refl.
    + intros ->.
      rewrite !command_topics_differ by discriminate.
      now rewrite String.eqb_refl.
    + intros ->.
      rewrite !command_topics_differ by discriminate.
      now rewrite String.eqb_refl.
    + intros Hnot. unfold command_topics in Hnot. cbn [In] in Hnot.
      repeat match goal with
             | |- context [String.eqb ?a ?b] =>
                 destruct (String.eqb_spec a b) as [E|_];
                 [exfalso; apply Hnot; rewrite E; tauto|]
             end.
      reflexivity.
Qed.

(** *** From a command to the next state document *)

Lemma get_after_set (p k : string) (v d : value) (w : world) :
  ConfigDB.get p k d (ConfigDB.set p k v w) = v.
Proof.
  unfold ConfigDB.get, ConfigDB.set. cbn [configDB with_configDB].
  now rewrite lookup_insert_eq.
Qed.

Lemma get_after_other_set (p k p' k' : string) (v d : value) (w : world) :
  (p', k') <> (p, k) ->
  ConfigDB.get p k d (ConfigDB.set p' k' v w) = ConfigDB.get p k d w.
Proof.
  intros H. unfold ConfigDB.get, ConfigDB.set.
  cbn [configDB with_configDB]. now rewrite lookup_insert_ne.
Qed.

Ltac read_store :=
  repeat first [ rewrite get_after_set
               | rewrite get_after_other_set by discriminate ].

Lemma mode_field (stamp : time_reading) (w : world) :
  field "mode" (state_payload stamp w) = Some (JStr (current_mode w)).
Proof. reflexivity. Qed.

Lemma switch_fields (stamp : time_reading) (w : world) :
  field "switch_enabled" (state_payload stamp w)
  = Some (to_json (ConfigDB.get "switch" "enabled" (VBool false) w))
  /\ field "switch_on" (state_payload stamp w)
     = Some (to_json (ConfigDB.get "switch" "on" (VBool false) w)).
Proof. split; reflexivity. Qed.

Lemma handle_mode_options (w : world) :
  _handle_mode_command "manual" w
  = ConfigDB.set "scheduler" "enabled" (VBool false)
      (ConfigDB.set "switch" "enabled" (VBool true) w)
  /\ _handle_mode_command "schedule" w
     = ConfigDB.set "switch" "enabled" (VBool false)
         (ConfigDB.set "scheduler" "enabled" (VBool true) w)
  /\ _handle_mode_command "off" w
     = ConfigDB.set "switch" "enabled" (VBool false)
         (ConfigDB.set "scheduler" "enabled" (VBool false) w).
Proof. repeat split. Qed.

(** Each option the "select" entity offers to Home Assistant, sent back on
    mode/set, is the mode the next state document reports. *)
Theorem select_option_round_trip (dev : string) (max_allowed : value)
    (e : list (string * json)) (options : list json) (o : string)
    (stamp : time_reading) (w : world) :
  In e (control_entities MIN_CHARGING_CURRENT dev max_allowed) ->
  assoc "options" e = Some (JList options) ->
  In (JStr o) options ->
  field "mode" (state_payload stamp (_handle_mode_command o w))
  = Some (JStr o).
Proof.
  intros He Hopt Ho. rewrite mode_field. do 2 f_equal.
  cbn [control_entities In] in He.
  destruct He as [<-|[<-|[<-|[]]]]; try discriminate Hopt.
  injection Hopt as <-. cbn [In] in Ho.
  destruct (handle_mode_options w) as (Hman & Hsch & Hoff).
  destruct Ho as [[= <-]|[[= <-]|[[= <-]|[]]]];
    [rewrite Hman | rewrite Hsch | rewrite Hoff];
    unfold current_mode; read_store; reflexivity.
Qed.

(** The payloads the "switch" entity tells Home Assistant to send come back
    in the next state document: after payload_on both switch_enabled and
    switch_on are true, after payload_off switch_enabled is true and
    switch_on false; either way the mode reads "manual". *)
Theorem switch_payload_round_trip (dev : string) (max_allowed : value)
    (e : list (string * json)) (p_on p_off : string)
    (stamp : time_reading) (w : world) :
  In e (control_entities MIN_CHARGING_CURRENT dev max_allowed) ->
  assoc "component" e = Some (JStr "switch") ->
  assoc "payload_on" e = Some (JStr p_on) ->
  assoc "payload_off" e = Some (JStr p_off) ->
  (field "switch_enabled" (state_payload stamp (_handle_switch_command p_on w))
   = Some (JBool true)
   /\ field "switch_on" (state_payload stamp (_handle_switch_command p_on w))
      = Some (JBool true)
   /\ field "mode" (state_payload stamp (_handle_switch_command p_on w))
      = Some (JStr "manual"))
  /\ (field "switch_enabled"
            (state_payload stamp (_handle_switch_command p_off w))
      = Some (JBool true)
      /\ field "switch_on"
               (state_payload stamp (_handle_switch_command p_off w))
         = Some (JBool false)
      /\ field "mode" (state_payload stamp (_handle_switch_command p_off w))
         = Some (JStr "manual")).
Proof.
  intros He Hc Hon Hoff.
  cbn [control_entities In] in He.
  destruct He as [<-|[<-|[<-|[]]]]; try discriminate Hc.
  injection Hon as <-. injection Hoff as <-.
  rewrite !mode_field.
  destruct (switch_fields stamp (_handle_switch_command "ON" w))
    as (-> & ->).
  destruct (switch_fields stamp (_handle_switch_command "OFF" w))
    as (-> & ->).
  unfold current_mode, _handle_switch_command. read_store.
  repeat split.
Qed.

(** Any switch command, and any current limit command that is accepted,
    puts the plugin in manual mode: the next state document says "manual"
    whatever the two flags were before. *)
Theorem manual_override (payload : string) (stamp : time_reading)
    (w : world) :
  field "mode" (state_payload stamp (_handle_switch_command payload w))
  = Some (JStr "manual")
  /\ (_handle_current_limit_command MIN_CHARGING_CURRENT
        MAX_CHARGING_CURRENT py_float payload w = w
      \/ field "mode"
           (state_payload stamp
              (_handle_current_limit_command MIN_CHARGING_CURRENT
                 MAX_CHARGING_CURRENT py_float payload w))
         = Some (JStr "manual")).
Proof.
  rewrite !mode_field. split.
  - unfold current_mode, _handle_switch_command. read_store. reflexivity.
  - unfold _handle_current_limit_command.
    destruct (current_limit_checked _ _ _ _ _) as [[n|]|e];
      [right | now left | now left].
    unfold current_mode. read_store. reflexivity.
Qed.

(** enable_plugin turns one plugin on without turning the other off: with
    the switch plugin enabled, enabling the scheduler leaves both enabled,
    and the next state document reports the mode "off"; the same holds with
    the two plugins exchanged. *)
Theorem enable_both_reads_off (token : string) (stamp : time_reading)
    (w : world) :
  ci_one_of token ["true"; "on"; "1"; "enabled"] ->
  (flag_on "switch" w ->
   flag_on "switch" (_handle_enable_plugin_command ("scheduler:" +:+ token) w)
   /\ flag_on "scheduler"
        (_handle_enable_plugin_command ("scheduler:" +:+ token) w)
   /\ field "mode"
        (state_payload stamp
           (_handle_enable_plugin_command ("scheduler:" +:+ token) w))
      = Some (JStr "off"))
  /\ (flag_on "scheduler" w ->
      flag_on "switch" (_handle_enable_plugin_command ("switch:" +:+ token) w)
      /\ flag_on "scheduler"
           (_handle_enable_plugin_command ("switch:" +:+ token) w)
      /\ field "mode"
           (state_payload stamp
              (_handle_enable_plugin_command ("switch:" +:+ token) w))
         = Some (JStr "off")).
Proof.
  intros Htok. apply (mem_lower token) in Htok; [| repeat constructor].
  assert (Hs : _handle_enable_plugin_command ("scheduler:" +:+ token) w
               = ConfigDB.set "scheduler" "enabled" (VBool true) w).
  { unfold _handle_enable_plugin_command.
    change ("scheduler:" +:+ token)
      with ("scheduler" +:+ String colon token).
    rewrite has_colon_app, split_colon_first, Htok; [reflexivity|].
    apply plugin_names_no_colon. }
  assert (Hw : _handle_enable_plugin_command ("switch:" +:+ token) w
               = ConfigDB.set "switch" "enabled" (VBool true) w).
  { unfold _handle_enable_plugin_command.
    change ("switch:" +:+ token) with ("switch" +:+ String colon token).
    rewrite has_colon_app, split_colon_first, Htok; [reflexivity|].
    apply plugin_names_no_colon. }
  rewrite Hs, Hw, !mode_field. unfold flag_on, current_mode.
  split; intros H; read_store; rewrite H; repeat split.
Qed.

(** *** Inside one state document *)

Lemma in_ints_incl (v : value) (l l' : list Z) :
  incl l l' -> in_ints v l = true -> in_ints v l' = true.
Proof.
  unfold in_ints. rewrite !existsb_exists. intros Hi (k & Hk & E).
  exists k. split; [apply Hi, Hk | exact E].
Qed.

(** No state document reports a charge without a vehicle: whatever the
    charger state id, charging_active "true" comes with vehicle_connected
    "true". *)
Theorem charging_implies_vehicle_connected (stamp : time_reading)
    (w : world) :
  field "charging_active" (state_payload stamp w) = Some (JStr "true") ->
  field "vehicle_connected" (state_payload stamp w) = Some (JStr "true").
Proof.
  change (field "charging_active" (state_payload stamp w))
    with (Some (py_bool_str
                  (in_ints (stateDict_get "eo_charger_state_id" (VInt 0) w)
                           [11; 12; 13; 14]))).
  change (field "vehicle_connected" (state_payload stamp w))
    with (Some (py_bool_str
                  (in_ints (stateDict_get "eo_charger_state_id" (VInt 0) w)
                           [7; 8; 9; 10; 11; 12; 13; 14; 15; 16]))).
  unfold py_bool_str.
  destruct (in_ints _ [11; 12; 13; 14]) eqn:H; [| discriminate].
  intros _.
  rewrite (in_ints_incl _ [11; 12; 13; 14]
             [7; 8; 9; 10; 11; 12; 13; 14; 15; 16]); [reflexivity | | exact H].
  intros k Hk. cbn [In] in *. intuition.
Qed.

(** No command changes what the state document says of the charger: after
    any message, every field other than mode, switch_on and switch_enabled
    is what it was before.  An accepted current limit is therefore not
    echoed in amps_limit, which stays the value of the shared state. *)
Theorem commands_keep_telemetry (msg : message) (stamp : time_reading)
    (w : world) (k : string) :
  ~ In k config_fields ->
  field k (state_payload stamp
             (_on_message MIN_CHARGING_CURRENT MAX_CHARGING_CURRENT py_float
                decode_strip msg w))
  = field k (state_payload stamp w).
Proof.
  intros Hk.
  destruct (on_message_frame MIN_CHARGING_CURRENT MAX_CHARGING_CURRENT
              py_float decode_strip msg w)
    as (_ & _ & _ & _ & _ & Hsd & _).
  set (w' := _on_message _ _ _ _ _ _) in *.
  unfold state_payload, stateDict_get. rewrite Hsd.
  unfold config_fields in Hk. cbn [In] in Hk.
  cbn [field assoc].
  repeat match goal with
         | |- context [String.eqb k ?s] =>
             destruct (String.eqb_spec k s) as [->|_];
             [first [reflexivity | exfalso; apply Hk; tauto]|]
         end.
  reflexivity.
Qed.

(** *** Connecting, and the discovery thread *)

(** What [_on_connect] does on return code 0. *)
Lemma on_connect_ok (w : world) :
  connected (_on_connect 0 w) = true
  /\ subscriptions (_on_connect 0 w)
     = (subscriptions w ++ command_topics (get_config device_id w))%list
  /\ spawned (_on_connect 0 w) = S (spawned w)
  /\ MQTT_AVAILABLE (_on_connect 0 w) = MQTT_AVAILABLE w
  /\ config (_on_connect 0 w) = config w
  /\ last_publish (_on_connect 0 w) = last_publish w
  /\ discovery_sent (_on_connect 0 w) = discovery_sent w
  /\ configDB (_on_connect 0 w) = configDB w
  /\ stateDict (_on_connect 0 w) = stateDict w
  /\ outbox (_on_connect 0 w) = outbox w.
Proof.
  split; [reflexivity|]. split.
  - unfold _on_connect, _subscribe_to_commands, command_topics, get_config.
    cbn. now rewrite <- !app_assoc.
  - repeat split.
Qed.

Lemma with_spawned_keeps (n : nat) (w : world) :
  MQTT_AVAILABLE (with_spawned n w) = MQTT_AVAILABLE w
  /\ config (with_spawned n w) = config w
  /\ connected (with_spawned n w) = connected w
  /\ last_publish (with_spawned n w) = last_publish w
  /\ discovery_sent (with_spawned n w) = discovery_sent w
  /\ configDB (with_spawned n w) = configDB w
  /\ stateDict (with_spawned n w) = stateDict w
  /\ outbox (with_spawned n w) = outbox w
  /\ subscriptions (with_spawned n w) = subscriptions w
  /\ faults (with_spawned n w) = faults w
  /\ spawned (with_spawned n w) = n.
Proof. repeat split. Qed.

Lemma with_discovery_sent_keeps_all (b : bool) (w : world) :
  MQTT_AVAILABLE (with_discovery_sent b w) = MQTT_AVAILABLE w
  /\ config (with_discovery_sent b w) = config w
  /\ connected (with_discovery_sent b w) = connected w
  /\ last_publish (with_discovery_sent b w) = last_publish w
  /\ configDB (with_discovery_sent b w) = configDB w
  /\ stateDict (with_discovery_sent b w) = stateDict w
  /\ subscriptions (with_discovery_sent b w) = subscriptions w
  /\ spawned (with_discovery_sent b w) = spawned w.
Proof. repeat split. Qed.

(** A started thread on a connected plugin whose overall limit [min]
    takes. *)
Lemma run_discovery_thread_connected (w : world) (n : nat)
    (max_allowed : value) :
  spawned w = S n ->
  connected w = true ->
  min_int MAX_CHARGING_CURRENT
    (stateDict_get "eo_overall_limit_current"
                   (VInt MAX_CHARGING_CURRENT) w) = Ok max_allowed ->
  exists calls : list publish_call,
    outbox (run_discovery_thread MIN_CHARGING_CURRENT MAX_CHARGING_CURRENT w)
    = (outbox w ++ calls)%list
    /\ length calls = 15%nat
    /\ Forall (fun c => p_retain c = true) calls
    /\ map call_content calls = discovery_contents MIN_CHARGING_CURRENT w max_allowed
    /\ map p_topic calls
       = map (config_topic (get_config mqtt_discovery_prefix w)
                (get_config device_id w)) entity_catalog
    /\ spawned (run_discovery_thread MIN_CHARGING_CURRENT
                  MAX_CHARGING_CURRENT w) = n
    /\ discovery_sent (run_discovery_thread MIN_CHARGING_CURRENT
                         MAX_CHARGING_CURRENT w) = true
    /\ connected (run_discovery_thread MIN_CHARGING_CURRENT
                    MAX_CHARGING_CURRENT w) = true
    /\ MQTT_AVAILABLE (run_discovery_thread MIN_CHARGING_CURRENT
                         MAX_CHARGING_CURRENT w) = MQTT_AVAILABLE w
    /\ config (run_discovery_thread MIN_CHARGING_CURRENT
                 MAX_CHARGING_CURRENT w) = config w
    /\ last_publish (run_discovery_thread MIN_CHARGING_CURRENT
                       MAX_CHARGING_CURRENT w) = last_publish w
    /\ configDB (run_discovery_thread MIN_CHARGING_CURRENT
                   MAX_CHARGING_CURRENT w) = configDB w
    /\ stateDict (run_discovery_thread MIN_CHARGING_CURRENT
                    MAX_CHARGING_CURRENT w) = stateDict w
    /\ subscriptions (run_discovery_thread MIN_CHARGING_CURRENT
                        MAX_CHARGING_CURRENT w) = subscriptions w.
Proof.
  intros Hsp Hc Hmin.
  unfold run_discovery_thread. rewrite Hsp.
  rewrite (send_discovery_connected MIN_CHARGING_CURRENT
             MAX_CHARGING_CURRENT (with_spawned n w) max_allowed Hc Hmin).
  pose proof (discovery_loop (get_config mqtt_discovery_prefix w)
                (get_config device_id w) (_get_device_info w)
                (all_entities MIN_CHARGING_CURRENT (get_config device_id w)
                   max_allowed) (with_spawned n w)) as (Ho & _ & Hr).
  change (get_config mqtt_discovery_prefix (with_spawned n w))
    with (get_config mqtt_discovery_prefix w).
  change (get_config device_id (with_spawned n w))
    with (get_config device_id w).
  change (_get_device_info (with_spawned n w)) with (_get_device_info w).
  set (wl := fold_left _ _ _) in *.
  destruct Hr as (R1 & R2 & R3 & R4 & R5 & R6 & R7 & R8 & R9).
  destruct (with_discovery_sent_keeps_all true wl)
    as (K1 & K2 & K3 & K4 & K5 & K6 & K7 & K8).
  destruct (with_spawned_keeps n w)
    as (S1 & S2 & S3 & S4 & S5 & S6 & S7 & S8 & S9 & S10 & S11).
  exists (discovery_calls (get_config mqtt_discovery_prefix w)
            (get_config device_id w) (_get_device_info w)
            (all_entities MIN_CHARGING_CURRENT (get_config device_id w)
               max_allowed) (faults w)).
  split.
  { rewrite outbox_with_discovery_sent, Ho, S8, S10. reflexivity. }
  split.
  { rewrite discovery_calls_length. apply all_entities_length. }
  split; [apply discovery_calls_retained|].
  split; [apply discovery_calls_content|].
  split.
  { rewrite discovery_calls_topic. apply all_entities_topics. }
  split; [now rewrite K8, R9|].
  split; [apply discovery_sent_with_discovery_sent|].
  split; [now rewrite K3, R3|].
  split; [now rewrite K1, R1|].
  split; [now rewrite K2, R2|].
  split; [now rewrite K4, R4|].
  split; [now rewrite K5, R6|].
  split; [now rewrite K6, R7|].
  now rewrite K7, R8.
Qed.

(** A successful connect marks the plugin connected, subscribes to the four
    command topics of the device in their order, starts one discovery thread
    and touches nothing else; a refused connect changes nothing at all.  The
    command topics the three control entities advertise are the first three
    of the subscribed topics: enable_plugin is subscribed but no entity
    offers it. *)
Theorem on_connect_effect (rc : Z) (w : world) (max_allowed : value) :
  (rc <> 0 -> _on_connect rc w = w)
  /\ (connected (_on_connect 0 w) = true
      /\ subscriptions (_on_connect 0 w)
         = (subscriptions w ++ command_topics (get_config device_id w))%list
      /\ spawned (_on_connect 0 w) = S (spawned w)
      /\ discovery_sent (_on_connect 0 w) = discovery_sent w
      /\ outbox (_on_connect 0 w) = outbox w
      /\ configDB (_on_connect 0 w) = configDB w
      /\ stateDict (_on_connect 0 w) = stateDict w)
  /\ map (assoc "command_topic")
         (control_entities MIN_CHARGING_CURRENT (get_config device_id w)
            max_allowed)
     = map (fun t => Some (JStr t))
           (firstn 3 (command_topics (get_config device_id w)))
  /\ map (assoc "command_topic") (sensors (get_config device_id w))
     = repeat None 12.
Proof.
  split; [| split; [| split]].
  - intros Hrc. unfold _on_connect.
    destruct (Z.eqb_spec rc 0) as [E|_]; [now contradiction Hrc | reflexivity].
  - destruct (on_connect_ok w)
      as (H1 & H2 & H3 & _ & _ & _ & H7 & H8 & H9 & H10).
    repeat split; assumption.
  - reflexivity.
  - reflexivity.
Qed.


(** *** The poll hook *)

Lemma with_last_publish_keeps (t : spec_float) (w : world) :
  MQTT_AVAILABLE (with_last_publish t w) = MQTT_AVAILABLE w
  /\ config (with_last_publish t w) = config w
  /\ connected (with_last_publish t w) = connected w
  /\ discovery_sent (with_last_publish t w) = discovery_sent w
  /\ configDB (with_last_publish t w) = configDB w
  /\ stateDict (with_last_publish t w) = stateDict w
  /\ outbox (with_last_publish t w) = outbox w
  /\ subscriptions (with_last_publish t w) = subscriptions w
  /\ spawned (with_last_publish t w) = spawned w.
Proof. repeat split. Qed.

(** What [_publish_state] may change. *)
Lemma publish_state_effect (stamp : time_reading) (w : world) :
  MQTT_AVAILABLE (_publish_state stamp w) = MQTT_AVAILABLE w
  /\ config (_publish_state stamp w) = config w
  /\ connected (_publish_state stamp w) = connected w
  /\ last_publish (_publish_state stamp w) = last_publish w
  /\ discovery_sent (_publish_state stamp w) = discovery_sent w
  /\ configDB (_publish_state stamp w) = configDB w
  /\ stateDict (_publish_state stamp w) = stateDict w
  /\ subscriptions (_publish_state stamp w) = subscriptions w
  /\ spawned (_publish_state stamp w) = spawned w
  /\ (outbox (_publish_state stamp w) = outbox w
      \/ connected w = true
         /\ exists c : publish_call,
              outbox (_publish_state stamp w) = (outbox w ++ [c])%list
              /\ p_topic c = "openeo/" +:+ get_config device_id w +:+ "/state"
              /\ p_payload c = state_payload stamp w
              /\ p_retain c = false).
Proof.
  unfold _publish_state. destruct (connected w) eqn:Hc; cbn [negb].
  - do 9 (split; [first [reflexivity | exact Hc]|]).
    right. split; [reflexivity|].
    eexists. split; [reflexivity|]. repeat split.
  - do 9 (split; [first [reflexivity | exact Hc]|]). now left.
Qed.

(** [poll] in full: the value it returns, what it leaves alone, and the two
    things it may do. *)
Lemma poll_effect_aux (current_time stamp : time_reading) (w : world) :
  snd (poll current_time stamp w) = 0
  /\ MQTT_AVAILABLE (fst (poll current_time stamp w)) = MQTT_AVAILABLE w
  /\ config (fst (poll current_time stamp w)) = config w
  /\ connected (fst (poll current_time stamp w)) = connected w
  /\ discovery_sent (fst (poll current_time stamp w)) = discovery_sent w
  /\ configDB (fst (poll current_time stamp w)) = configDB w
  /\ stateDict (fst (poll current_time stamp w)) = stateDict w
  /\ subscriptions (fst (poll current_time stamp w)) = subscriptions w
  /\ (spawned (fst (poll current_time stamp w)) = spawned w
      \/ spawned (fst (poll current_time stamp w)) = S (spawned w)
         /\ connected w = true /\ discovery_sent w = false)
  /\ (outbox (fst (poll current_time stamp w)) = outbox w
      \/ connected w = true
         /\ interval_elapsed current_time w = true
         /\ last_publish (fst (poll current_time stamp w))
            = time_float current_time
         /\ exists c : publish_call,
              outbox (fst (poll current_time stamp w))
              = (outbox w ++ [c])%list
              /\ p_topic c = "openeo/" +:+ get_config device_id w +:+ "/state"
              /\ p_retain c = false).
Proof.
  unfold poll.
  destruct (negb (MQTT_AVAILABLE w) || negb (get_config enabled w)).
  { cbn [fst snd]. repeat split; now left. }
  cbn [fst snd].
  set (w1 := if connected w && negb (discovery_sent w)
             then start_discovery_thread w else w).
  assert (H1 : MQTT_AVAILABLE w1 = MQTT_AVAILABLE w /\ config w1 = config w
               /\ connected w1 = connected w
               /\ last_publish w1 = last_publish w
               /\ discovery_sent w1 = discovery_sent w
               /\ configDB w1 = configDB w /\ stateDict w1 = stateDict w
               /\ subscriptions w1 = subscriptions w
               /\ outbox w1 = outbox w
               /\ (spawned w1 = spawned w
                   \/ spawned w1 = S (spawned w)
                      /\ connected w = true /\ discovery_sent w = false)).
  { subst w1.
    destruct (connected w) eqn:Ec, (discovery_sent w) eqn:Ed;
      cbn [andb negb];
      do 9 (split; [first [reflexivity | exact Ec | exact Ed]|]);
      first [now left | right; repeat split]. }
  destruct H1 as (A1 & A2 & A3 & A4 & A5 & A6 & A7 & A8 & A9 & A10).
  assert (Hi : interval_elapsed current_time w1
               = interval_elapsed current_time w).
  { unfold interval_elapsed, get_config. now rewrite A4, A2. }
  rewrite Hi. clear Hi.
  destruct (interval_elapsed current_time w) eqn:He.
  2: { rewrite A1, A2, A3, A5, A6, A7, A8, A9.
       repeat split; [exact A10 | now left]. }
  destruct (publish_state_effect stamp w1)
    as (P1 & P2 & P3 & P4 & P5 & P6 & P7 & P8 & P9 & P10).
  destruct (with_last_publish_keeps (time_float current_time)
              (_publish_state stamp w1))
    as (L1 & L2 & L3 & L4 & L5 & L6 & L7 & L8 & L9).
  rewrite L1, L2, L3, L4, L5, L6, L7, L8, L9.
  rewrite P1, P2, P3, P5, P6, P7, P8, P9, A1, A2, A3, A5, A6, A7, A8.
  repeat split; [exact A10|].
  destruct P10 as [P10 | (Pc & c & Pout & Ptop & _ & Pret)].
  - left. now rewrite P10.
  - right. rewrite A3 in Pc. split; [exact Pc|]. split; [reflexivity|].
    split; [reflexivity|].
    exists c. rewrite Pout, A9. split; [reflexivity|].
    split; [| exact Pret].
    rewrite Ptop. unfold get_config. now rewrite A2.
Qed.

(** [poll] always returns 0.  Any number of polls leaves the configuration,
    the two shared stores, the connection flags and the subscriptions as
    they were, and publishes nothing but state messages: calls that are not
    retained, addressed to openeo/{device_id}/state, at most one for each
    poll, and none at all on a plugin that is not connected. *)
Theorem polls_only_publish_state
    (times : list (time_reading * time_reading)) (w : world) :
  (forall t s : time_reading, snd (poll t s w) = 0)
  /\ config (run MIN_CHARGING_CURRENT MAX_CHARGING_CURRENT py_float
               decode_strip (map (fun ts => EPoll (fst ts) (snd ts)) times) w)
     = config w
  /\ configDB (run MIN_CHARGING_CURRENT MAX_CHARGING_CURRENT py_float
                 decode_strip
                 (map (fun ts => EPoll (fst ts) (snd ts)) times) w)
     = configDB w
  /\ stateDict (run MIN_CHARGING_CURRENT MAX_CHARGING_CURRENT py_float
                  decode_strip
                  (map (fun ts => EPoll (fst ts) (snd ts)) times) w)
     = stateDict w
  /\ connected (run MIN_CHARGING_CURRENT MAX_CHARGING_CURRENT py_float
                  decode_strip
                  (map (fun ts => EPoll (fst ts) (snd ts)) times) w)
     = connected w
  /\ discovery_sent (run MIN_CHARGING_CURRENT MAX_CHARGING_CURRENT py_float
                       decode_strip
                       (map (fun ts => EPoll (fst ts) (snd ts)) times) w)
     = discovery_sent w
  /\ subscriptions (run MIN_CHARGING_CURRENT MAX_CHARGING_CURRENT py_float
                      decode_strip
                      (map (fun ts => EPoll (fst ts) (snd ts)) times) w)
     = subscriptions w
  /\ exists new : list publish_call,
       outbox (run MIN_CHARGING_CURRENT MAX_CHARGING_CURRENT py_float
                 decode_strip
                 (map (fun ts => EPoll (fst ts) (snd ts)) times) w)
       = (outbox w ++ new)%list
       /\ (length new <= length times)%nat
       /\ (connected w = false -> new = [])
       /\ Forall (fun c => p_retain c = false
                           /\ p_topic c
                              = "openeo/" +:+ get_config device_id w
                                  +:+ "/state") new.
Proof.
  split. { intros t s. apply poll_effect_aux. }
  revert w. induction times as [|[t s] times IH]; intros w.
  - unfold run. cbn [map fold_left].
    do 6 (split; [reflexivity|]). exists [].
    rewrite app_nil_r. repeat split; [cbn; lia | constructor].
  - unfold run in *. cbn [map fold_left step fst snd].
    destruct (poll_effect_aux t s w)
      as (_ & _ & P2 & P3 & P4 & P5 & P6 & P7 & _ & P9).
    destruct (IH (fst (poll t s w)))
      as (I1 & I2 & I3 & I4 & I5 & I6 & new2 & Io & Il & Ic & If).
    rewrite I1, I2, I3, I4, I5, I6, Io.
    do 6 (split; [assumption|]).
    unfold get_config in If. rewrite P2 in If. fold (get_config device_id w) in If.
    destruct P9 as [P9 | (Pc & _ & _ & c & P9 & Pt & Pr)].
    + exists new2. rewrite P9. split; [reflexivity|].
      split; [cbn [length]; lia|]. split; [| exact If].
      intros Hc. apply Ic. now rewrite P3.
    + exists (c :: new2). rewrite P9, <- app_assoc.
      split; [reflexivity|]. split; [cbn [length]; lia|].
      split; [intros Hc; rewrite Hc in Pc; discriminate Pc|].
      constructor; [split; assumption | exact If].
Qed.

(** A module that is disabled, or whose MQTT library is missing, polls to
    nothing: any number of polls leaves the world as it is. *)
Theorem polls_of_disabled_module
    (times : list (time_reading * time_reading)) (w : world) :
  MQTT_AVAILABLE w = false \/ get_config enabled w = false ->
  run MIN_CHARGING_CURRENT MAX_CHARGING_CURRENT py_float decode_strip
    (map (fun ts => EPoll (fst ts) (snd ts)) times) w = w.
Proof.
  intros H. induction times as [|[t s] times IH]; [reflexivity|].
  unfold run in *. cbn [map fold_left step fst snd].
  replace (fst (poll t s w)) with w; [exact IH|].
  unfold poll. destruct H as [-> | ->]; [reflexivity|].
  now rewrite orb_true_r.
Qed.

(** With a positive publish interval, a poll at the very clock reading of
    the last publish sends no state; with an interval of zero or less it
    sends one on every poll while connected. *)
Theorem poll_at_same_reading (t stamp : time_reading) (w : world) :
  last_publish w = time_float t ->
  (0 < get_config publish_interval w ->
   outbox (fst (poll t stamp w)) = outbox w)
  /\ (get_config publish_interval w <= 0 ->
      MQTT_AVAILABLE w = true -> get_config enabled w = true ->
      connected w = true ->
      exists c : publish_call,
        outbox (fst (poll t stamp w)) = (outbox w ++ [c])%list
        /\ p_topic c = "openeo/" +:+ get_config device_id w +:+ "/state").
Proof.
  intros Hl.
  assert (Hi : interval_elapsed t w = (get_config publish_interval w <=? 0)).
  { unfold interval_elapsed. rewrite Hl. unfold time_float.
    rewrite binary64_sub_diag. cbn [num_compare Zfloat_compare option_map].
    destruct (Z.compare_spec (get_config publish_interval w) 0),
      (Z.leb_spec (get_config publish_interval w) 0);
      (reflexivity || lia). }
  destruct (poll_effect_aux t stamp w)
    as (_ & _ & _ & _ & _ & _ & _ & _ & _ & Hout).
  split.
  - intros Hpos.
    destruct Hout as [Hout | (_ & He & _)]; [exact Hout|].
    rewrite Hi in He. apply Z.leb_le in He. lia.
  - intros Hneg Ha Hen Hc. apply Z.leb_le in Hneg. rewrite <- Hi in Hneg.
    rewrite (poll_elapsed t stamp w Ha Hen Hneg).
    rewrite Hc.
    destruct (publish_state_effect stamp
                (if true && negb (discovery_sent w)
                 then start_discovery_thread w else w))
      as (_ & _ & _ & _ & _ & _ & _ & _ & _ & P10).
    destruct (with_last_publish_keeps (time_float t)
                (_publish_state stamp
                   (if true && negb (discovery_sent w)
                    then start_discovery_thread w else w)))
      as (_ & _ & _ & _ & _ & _ & L7 & _).
    rewrite L7.
    destruct P10 as [P10 | (_ & c & Pout & Ptop & _)].
    + exfalso.
      assert (Hlen : length (outbox (_publish_state stamp
                       (if true && negb (discovery_sent w)
                        then start_discovery_thread w else w)))
                     = length (outbox w)).
      { rewrite P10. now destruct (discovery_sent w). }
      rewrite publish_state_connected in Hlen
        by now destruct (discovery_sent w).
      unfold Client.publish in Hlen. cbn [outbox] in Hlen.
      rewrite length_app in Hlen. cbn [length] in Hlen.
      destruct (discovery_sent w); cbn in Hlen; lia.
    + exists c. rewrite Pout. split.
      * now destruct (discovery_sent w).
      * rewrite Ptop. now destruct (discovery_sent w).
Qed.

(** *** Threads that overlap, threads that die *)


(** An overall limit that is no number kills the discovery thread before
    its first publish: [min] raises outside any [try].  The thread leaves
    no trace but its own end, and [discovery_sent] stays as it was, so that
    the next poll starts a thread again. *)
Theorem discovery_thread_dies_on_bad_limit (w : world) (n : nat) :
  connected w = true ->
  spawned w = S n ->
  num_of (stateDict_get "eo_overall_limit_current"
            (VInt MAX_CHARGING_CURRENT) w) = None ->
  _send_discovery MIN_CHARGING_CURRENT MAX_CHARGING_CURRENT w
  = Raise TypeError
  /\ run_discovery_thread MIN_CHARGING_CURRENT MAX_CHARGING_CURRENT w
     = with_spawned n w.
Proof.
  intros Hc Hsp Hnum.
  assert (Hraise : forall w', connected w' = true ->
                     stateDict w' = stateDict w ->
                     _send_discovery MIN_CHARGING_CURRENT
                       MAX_CHARGING_CURRENT w' = Raise TypeError).
  { intros w' Hc' Hsd. unfold _send_discovery, min_int, lt_int.
    unfold stateDict_get in *. rewrite Hc', Hsd, Hnum. reflexivity. }
  split; [now apply Hraise|].
  unfold run_discovery_thread. rewrite Hsp.
  now rewrite (Hraise (with_spawned n w)).
Qed.

(** *** Invariants of every run *)

(** A discovery thread in every case: it keeps the connection flag, the
    configuration and the stores, and either publishes nothing and leaves
    [discovery_sent] alone, or runs on a connected plugin, publishes
    retained calls on the config topics of the catalog and sets the flag. *)
Lemma run_discovery_thread_cases (w : world) :
  connected (run_discovery_thread MIN_CHARGING_CURRENT MAX_CHARGING_CURRENT w)
  = connected w
  /\ config (run_discovery_thread MIN_CHARGING_CURRENT MAX_CHARGING_CURRENT w)
     = config w
  /\ stateDict (run_discovery_thread MIN_CHARGING_CURRENT
                  MAX_CHARGING_CURRENT w) = stateDict w
  /\ ((outbox (run_discovery_thread MIN_CHARGING_CURRENT
                 MAX_CHARGING_CURRENT w) = outbox w
       /\ discovery_sent (run_discovery_thread MIN_CHARGING_CURRENT
                            MAX_CHARGING_CURRENT w) = discovery_sent w)
      \/ (connected w = true
          /\ discovery_sent (run_discovery_thread MIN_CHARGING_CURRENT
                               MAX_CHARGING_CURRENT w) = true
          /\ exists calls : list publish_call,
               outbox (run_discovery_thread MIN_CHARGING_CURRENT
                         MAX_CHARGING_CURRENT w)
               = (outbox w ++ calls)%list
               /\ Forall (fun c => p_retain c = true) calls
               /\ map p_topic calls
                  = map (config_topic (get_config mqtt_discovery_prefix w)
                           (get_config device_id w)) entity_catalog)).
Proof.
  destruct (spawned w) as [|n] eqn:Hsp.
  { unfold run_discovery_thread. rewrite Hsp.
    repeat split. left. now split. }
  destruct (connected w) eqn:Hc.
  2: { unfold run_discovery_thread. rewrite Hsp. unfold _send_discovery.
       change (connected (with_spawned n w)) with (connected w).
       rewrite Hc. cbn [negb].
       do 3 (split; [first [reflexivity | exact Hc]|]). left. now split. }
  destruct (min_int MAX_CHARGING_CURRENT
              (stateDict_get "eo_overall_limit_current"
                 (VInt MAX_CHARGING_CURRENT) w)) as [m|e] eqn:Hm.
  - destruct (run_discovery_thread_connected w n m Hsp Hc Hm)
      as (calls & O & _ & R & _ & T & _ & D & C & _ & G & _ & _ & S & _).
    split; [exact C|]. split; [exact G|]. split; [exact S|].
    right. split; [reflexivity|]. split; [exact D|].
    exists calls. repeat split; assumption.
  - unfold run_discovery_thread. rewrite Hsp. unfold _send_discovery.
    change (connected (with_spawned n w)) with (connected w).
    rewrite Hc. cbn [negb].
    change (stateDict_get "eo_overall_limit_current"
              (VInt MAX_CHARGING_CURRENT) (with_spawned n w))
      with (stateDict_get "eo_overall_limit_current"
              (VInt MAX_CHARGING_CURRENT) w).
    rewrite Hm. cbn [rbind].
    do 3 (split; [first [reflexivity | exact Hc]|]). left. now split.
Qed.

Lemma step_keeps_sent_only_connected (ev : event) (w : world) :
  sent_only_connected w ->
  sent_only_connected
    (step MIN_CHARGING_CURRENT MAX_CHARGING_CURRENT py_float decode_strip
       ev w).
Proof.
  unfold sent_only_connected. intros Hw.
  destruct ev as [rc|rc|msg|t s|]; cbn [step].
  - unfold _on_connect. destruct (rc =? 0); [| exact Hw].
    intros _. apply on_connect_ok.
  - intros H. discriminate H.
  - destruct (on_message_frame MIN_CHARGING_CURRENT MAX_CHARGING_CURRENT
                py_float decode_strip msg w) as (_ & _ & -> & _ & -> & _).
    exact Hw.
  - destruct (poll_effect_aux t s w) as (_ & _ & _ & -> & -> & _).
    exact Hw.
  - destruct (run_discovery_thread_cases w)
      as (-> & _ & _ & [(_ & ->) | (Hc & _)]); [exact Hw | intros _; exact Hc].
Qed.

(** Every event being taken as one step: whatever happens to the plugin,
    [discovery_sent] is never true on a plugin that is not connected. *)
Theorem sent_only_while_connected (evs : list event) (w : world) :
  sent_only_connected w ->
  sent_only_connected
    (run MIN_CHARGING_CURRENT MAX_CHARGING_CURRENT py_float decode_strip
       evs w).
Proof.
  revert w. induction evs as [|ev evs IH]; intros w Hw; [exact Hw|].
  unfold run in *. cbn [fold_left].
  apply IH, step_keeps_sent_only_connected, Hw.
Qed.

Lemma calls_well_addressed (cfg : PluginConfig)
    (calls : list publish_call) :
  Forall (fun c => p_retain c = true) calls ->
  map p_topic calls
  = map (config_topic (mqtt_discovery_prefix cfg) (device_id cfg))
        entity_catalog ->
  Forall (well_addressed cfg) calls.
Proof.
  intros Hret Htop. apply List.Forall_forall. intros c Hc.
  left. split.
  - rewrite List.Forall_forall in Hret. apply Hret, Hc.
  - apply (in_map p_topic) in Hc. rewrite Htop in Hc.
    apply in_map_iff in Hc as (e & He & Hin).
    exists e. split; [exact Hin | now symmetry].
Qed.

Lemma step_appends_well_addressed (ev : event) (w : world) :
  config (step MIN_CHARGING_CURRENT MAX_CHARGING_CURRENT py_float
            decode_strip ev w) = config w
  /\ exists new : list publish_call,
       outbox (step MIN_CHARGING_CURRENT MAX_CHARGING_CURRENT py_float
                 decode_strip ev w) = (outbox w ++ new)%list
       /\ Forall (well_addressed (config w)) new.
Proof.
  destruct ev as [rc|rc|msg|t s|]; cbn [step].
  - unfold _on_connect. destruct (rc =? 0).
    + split; [apply on_connect_ok|]. exists [].
      rewrite app_nil_r. split; [apply on_connect_ok | constructor].
    + split; [reflexivity|]. exists []. rewrite app_nil_r.
      split; [reflexivity | constructor].
  - split; [reflexivity|]. exists []. rewrite app_nil_r.
    split; [reflexivity | constructor].
  - destruct (on_message_frame MIN_CHARGING_CURRENT MAX_CHARGING_CURRENT
                py_float decode_strip msg w)
      as (_ & Hc & _ & _ & _ & _ & Ho & _).
    split; [exact Hc|]. exists []. rewrite app_nil_r.
    split; [exact Ho | constructor].
  - destruct (poll_effect_aux t s w)
      as (_ & _ & Hc & _ & _ & _ & _ & _ & _ & Ho).
    split; [exact Hc|].
    destruct Ho as [Ho | (_ & _ & _ & c & Ho & Ht & Hr)].
    + exists []. rewrite app_nil_r. split; [exact Ho | constructor].
    + exists [c]. split; [exact Ho|]. constructor; [| constructor].
      right. split; [exact Hr | exact Ht].
  - destruct (run_discovery_thread_cases w)
      as (_ & Hc & _ & [(Ho & _) | (_ & _ & calls & Ho & Hr & Ht)]).
    + split; [exact Hc|]. exists []. rewrite app_nil_r.
      split; [exact Ho | constructor].
    + split; [exact Hc|]. exists calls. split; [exact Ho|].
      apply calls_well_addressed; assumption.
Qed.

(** Every event being taken as one step: whatever happens to the plugin,
    each publish call it adds is either retained and addressed to the
    config topic of one of the 15 catalog entities, or not retained and
    addressed to openeo/{device_id}/state.  A state message is never
    retained, a discovery document always is; and, whatever the discovery
    prefix and the device id, no call is addressed to one of the four
    command topics the plugin subscribes to: it never sends itself a
    command. *)
Theorem every_publish_well_addressed (evs : list event) (w : world) :
  exists new : list publish_call,
    outbox (run MIN_CHARGING_CURRENT MAX_CHARGING_CURRENT py_float
              decode_strip evs w) = (outbox w ++ new)%list
    /\ Forall (fun c => well_addressed (config w) c
                        /\ ~ In (p_topic c)
                               (command_topics (get_config device_id w)))
              new.
Proof.
  assert (Hrun : exists new : list publish_call,
            outbox (run MIN_CHARGING_CURRENT MAX_CHARGING_CURRENT py_float
                      decode_strip evs w) = (outbox w ++ new)%list
            /\ Forall (well_addressed (config w)) new).
  { revert w. induction evs as [|ev evs IH]; intros w.
  - exists []. rewrite app_nil_r. split; [reflexivity | constructor].
  - unfold run in *. cbn [fold_left].
    destruct (step_appends_well_addressed ev w) as (Hc & new1 & H1 & F1).
    destruct (IH (step MIN_CHARGING_CURRENT MAX_CHARGING_CURRENT py_float
                    decode_strip ev w)) as (new2 & H2 & F2).
    exists (new1 ++ new2)%list. rewrite H2, H1, <- app_assoc.
    split; [reflexivity|]. apply Forall_app. split; [exact F1|].
    rewrite <- Hc. exact F2. }
  destruct Hrun as (new & Ho & Hf).
  exists new. split; [exact Ho|].
  apply List.Forall_forall. intros c Hc.
  rewrite List.Forall_forall in Hf. split; [apply Hf, Hc|].
  apply (well_addressed_not_command (config w) c), Hf, Hc.
Qed.

(** *** The discovery documents *)

Lemma all_entities_unique_ids (dev : string) (info : json)
    (max_allowed : value) :
  map (fun e => field "unique_id" (discovery_config dev info e))
      (all_entities MIN_CHARGING_CURRENT dev max_allowed)
  = map (fun e => Some (JStr (dev +:+ "_" +:+ snd e))) entity_catalog.
Proof. reflexivity. Qed.

(** Whatever the discovery prefix and the device id, the 15 entities are
    published on 15 different topics and carry 15 different unique ids, so
    that no retained document replaces another and Home Assistant sees 15
    entities. *)
Theorem discovery_topics_and_ids_distinct (prefix dev : string)
    (info : json) (max_allowed : value) :
  NoDup (map (discovery_topic prefix dev)
             (all_entities MIN_CHARGING_CURRENT dev max_allowed))
  /\ NoDup (map (fun e => field "unique_id" (discovery_config dev info e))
                (all_entities MIN_CHARGING_CURRENT dev max_allowed)).
Proof.
  split.
  - rewrite all_entities_topics.
    apply NoDup_map_inj_on; [| apply entity_catalog_NoDup].
    intros x y. apply config_topic_inj_on.
  - rewrite all_entities_unique_ids.
    apply NoDup_map_inj_on; [| apply entity_catalog_NoDup].
    intros x y Hx Hy H. apply (object_ids_distinct x y Hx Hy).
    injection H as H. now apply append_inv_head, append_inv_head in H.
Qed.

(** Every discovery document names the topic the state publisher writes to
    and carries the one device descriptor; each of the 12 sensors reads, by
    its value template, the field of the state document that bears its
    object id, the number entity reads amps_limit, and all these fields,
    with the three the switch and select templates read, are present in
    every state document. *)
Theorem discovery_matches_state (w : world) (stamp : time_reading)
    (max_allowed : value) :
  map (fun e => field "state_topic"
                  (discovery_config (get_config device_id w)
                     (_get_device_info w) e))
      (all_entities MIN_CHARGING_CURRENT (get_config device_id w)
         max_allowed)
  = repeat (Some (JStr ("openeo/" +:+ get_config device_id w +:+ "/state")))
           15
  /\ map (fun e => field "device"
                     (discovery_config (get_config device_id w)
                        (_get_device_info w) e))
         (all_entities MIN_CHARGING_CURRENT (get_config device_id w)
            max_allowed)
     = repeat (Some (_get_device_info w)) 15
  /\ map (assoc "value_template") (sensors (get_config device_id w))
     = map (fun e => Some (JStr ("{{ value_json." +:+ snd e +:+ " }}")))
           (firstn 12 entity_catalog)
  /\ (forall e : list (string * json),
        In e (control_entities MIN_CHARGING_CURRENT
                (get_config device_id w) max_allowed) ->
        assoc "component" e = Some (JStr "number") ->
        assoc "value_template" e
        = Some (JStr "{{ value_json.amps_limit }}"))
  /\ (forall k : string,
        In k (map snd (firstn 12 entity_catalog)
              ++ ["amps_limit"; "switch_enabled"; "switch_on"; "mode"])%list
        -> exists v : json, field k (state_payload stamp w) = Some v).
Proof.
  split; [reflexivity|]. split; [reflexivity|]. split; [reflexivity|].
  split.
  - intros e He Hc. cbn [control_entities In] in He.
    destruct He as [<-|[<-|[<-|[]]]]; try discriminate Hc. reflexivity.
  - intros k Hk. cbn in Hk.
    repeat (destruct Hk as [<-|Hk]; [eexists; reflexivity|]).
    contradiction.
Qed.

(** *** The range Home Assistant is told and the range that is accepted *)

Lemma current_limit_int_limit (payload : string) (w : world) (l n : Z) :
  overall_limit_is MAX_CHARGING_CURRENT w l ->
  truncated_amps py_float payload = Some n ->
  _handle_current_limit_command MIN_CHARGING_CURRENT MAX_CHARGING_CURRENT
    py_float payload w
  = if (MIN_CHARGING_CURRENT <=? n) && (n <=? Z.min MAX_CHARGING_CURRENT l)
    then ConfigDB.set "scheduler" "enabled" (VBool false)
           (ConfigDB.set "switch" "enabled" (VBool true)
              (ConfigDB.set "switch" "amps" (VInt n) w))
    else w.
Proof.
  unfold overall_limit_is, truncated_amps, _handle_current_limit_command,
    current_limit_checked.
  intros Hl. rewrite Hl, min_int_int.
  destruct (py_float payload) as [f|e]; cbn [rbind]; [| discriminate].
  destruct (py_int f) as [m|e]; cbn [rbind]; [| discriminate].
  intros [= ->]. rewrite int_le_int.
  destruct (MIN_CHARGING_CURRENT <=? n); cbn [rbind andb]; [| reflexivity].
  destruct (n <=? Z.min MAX_CHARGING_CURRENT l); reflexivity.
Qed.

(** With an integer overall limit [l] (or none, [l] = MAX), the discovery
    run publishes for the number entity the bounds min = MIN, max =
    min(MAX, l), step = 1, and these are the very bounds of the command
    handler: an integer inside them, sent back on current_limit/set, is
    stored as switch.amps, an integer outside them changes nothing. *)
Theorem number_entity_range_is_accepted_range (w : world) (l : Z) :
  connected w = true ->
  overall_limit_is MAX_CHARGING_CURRENT w l ->
  (exists (w' : world) (c : publish_call),
     _send_discovery MIN_CHARGING_CURRENT MAX_CHARGING_CURRENT w = Ok w'
     /\ In c (outbox w')
     /\ p_topic c
        = config_topic (get_config mqtt_discovery_prefix w)
            (get_config device_id w) ("number", "current_limit")
     /\ field "min" (p_payload c) = Some (JInt MIN_CHARGING_CURRENT)
     /\ field "max" (p_payload c)
        = Some (JInt (Z.min MAX_CHARGING_CURRENT l))
     /\ field "step" (p_payload c) = Some (JInt 1))
  /\ (forall (payload : string) (n : Z),
        truncated_amps py_float payload = Some n ->
        (MIN_CHARGING_CURRENT <= n <= Z.min MAX_CHARGING_CURRENT l ->
         configDB (_handle_current_limit_command MIN_CHARGING_CURRENT
                     MAX_CHARGING_CURRENT py_float payload w)
           !! ("switch", "amps") = Some (VInt n))
        /\ (~ MIN_CHARGING_CURRENT <= n <= Z.min MAX_CHARGING_CURRENT l ->
            _handle_current_limit_command MIN_CHARGING_CURRENT
              MAX_CHARGING_CURRENT py_float payload w = w)).
Proof.
  intros Hc Hl. split.
  - assert (Hmin : min_int MAX_CHARGING_CURRENT
                     (stateDict_get "eo_overall_limit_current"
                        (VInt MAX_CHARGING_CURRENT) w)
                   = Ok (VInt (Z.min MAX_CHARGING_CURRENT l))).
    { unfold overall_limit_is in Hl. rewrite Hl. apply min_int_int. }
    rewrite (send_discovery_connected MIN_CHARGING_CURRENT
               MAX_CHARGING_CURRENT w _ Hc Hmin).
    pose proof (discovery_loop (get_config mqtt_discovery_prefix w)
                  (get_config device_id w) (_get_device_info w)
                  (all_entities MIN_CHARGING_CURRENT (get_config device_id w)
                     (VInt (Z.min MAX_CHARGING_CURRENT l))) w)
      as (Ho & _ & _).
    set (ents := all_entities MIN_CHARGING_CURRENT (get_config device_id w)
                   (VInt (Z.min MAX_CHARGING_CURRENT l))) in *.
    set (e := nth 13 ents []).
    assert (He : In e ents).
    { apply nth_In. subst ents. rewrite all_entities_length. lia. }
    pose proof (discovery_calls_content (get_config mqtt_discovery_prefix w)
                  (get_config device_id w) (_get_device_info w) ents
                  (faults w)) as Hk.
    apply (in_map (fun e => (discovery_topic
                               (get_config mqtt_discovery_prefix w)
                               (get_config device_id w) e,
                             discovery_config (get_config device_id w)
                               (_get_device_info w) e, true))) in He.
    rewrite <- Hk in He. apply in_map_iff in He as (c & Hcc & Hin).
    eexists. exists c. split; [reflexivity|].
    rewrite outbox_with_discovery_sent, Ho.
    split; [apply in_or_app; now right|].
    unfold call_content in Hcc. injection Hcc as Ht Hp _.
    rewrite Ht, Hp. repeat split.
  - intros payload n Hn.
    rewrite (current_limit_int_limit payload w l n Hl Hn). split.
    + intros [Hlo Hhi]. apply Z.leb_le in Hlo, Hhi. rewrite Hlo, Hhi.
      cbn [andb]. unfold ConfigDB.set. cbn [configDB with_configDB].
      rewrite !lookup_insert_ne by discriminate. apply lookup_insert_eq.
    + intros Hout.
      destruct (Z.leb_spec MIN_CHARGING_CURRENT n); cbn [andb];
        [| reflexivity].
      destruct (Z.leb_spec n (Z.min MAX_CHARGING_CURRENT l));
        [| reflexivity].
      exfalso. apply Hout. split; assumption.
Qed.

(** *** The settings tables *)

(** [get_user_settings] offers every parameter of [pluginParamSpec], each
    once, in the same order and with the type declared for it, and gives
    each a title; no parameter is left without a setting and no setting is
    without a parameter. *)
Theorem user_settings_match_param_spec :
  map (fun d => (assoc "key" d, assoc "type" d)) get_user_settings
  = map (fun p => (Some (JStr (fst p)), assoc "type" (snd p)))
        pluginParamSpec
  /\ NoDup (map fst pluginParamSpec)
  /\ Forall (fun d => exists title : string,
                        assoc "title" d = Some (JStr title))
            get_user_settings
  /\ Forall (fun p => exists v : json, assoc "default" (snd p) = Some v)
            pluginParamSpec.
Proof.
  split; [reflexivity|]. split.
  - unfold pluginParamSpec. cbn [map fst].
    repeat (constructor;
            [rewrite list_elem_of_In; cbn [In]; intuition discriminate|]).
    constructor.
  - split; repeat (constructor; [eexists; reflexivity|]); constructor.
Qed.

End MoreProperties.

(** ** The further properties at concrete inputs *)

Module MoreWitnesses.
Import Examples MoreExamples PyVal.

(** The option "schedule" of the select entity. *)
Lemma select_option_round_trip_witness :
  field "mode" (state_payload t10 (_handle_mode_command "schedule" w0))
  = Some (JStr "schedule").
Proof.
  apply (select_option_round_trip 6 "dev" (VInt 32) (nth 2 controls [])
           [JStr "manual"; JStr "schedule"; JStr "off"] "schedule" t10 w0).
  - right. right. left. reflexivity.
  - reflexivity.
  - right. left. reflexivity.
Defined.

(** The payloads "ON" and "OFF" of the switch entity. *)
Lemma switch_payload_round_trip_witness :
  field "switch_on" (state_payload t10 (_handle_switch_command "ON" w0))
  = Some (JBool true)
  /\ field "switch_on" (state_payload t10 (_handle_switch_command "OFF" w0))
     = Some (JBool false).
Proof.
  destruct (switch_payload_round_trip 6 "dev" (VInt 32) (nth 0 controls [])
              "ON" "OFF" t10 w0)
    as ((_ & Hon & _) & (_ & Hoff & _)).
  - left. reflexivity.
  - reflexivity.
  - reflexivity.
  - reflexivity.
  - split; [exact Hon | exact Hoff].
Defined.

(** The switch plugin is enabled; "scheduler:true" arrives. *)
Lemma enable_both_reads_off_witness :
  flag_on "switch" w_switched
  /\ field "mode"
       (state_payload t10
          (_handle_enable_plugin_command "scheduler:true" w_switched))
     = Some (JStr "off").
Proof.
  assert (Hflag : flag_on "switch" w_switched) by reflexivity.
  split; [exact Hflag|].
  destruct (enable_both_reads_off "true" t10 w_switched) as (H & _).
  - left. vm_compute. auto 20.
  - apply (H Hflag).
Defined.

(** A charger in state 12. *)
Lemma charging_implies_vehicle_connected_witness :
  field "vehicle_connected"
        (state_payload t10 (with_state "eo_charger_state_id" (VInt 12)))
  = Some (JStr "true").
Proof.
  apply (charging_implies_vehicle_connected t10
           (with_state "eo_charger_state_id" (VInt 12))).
  reflexivity.
Defined.

(** An accepted current limit of 15 A leaves amps_limit as it was. *)
Lemma commands_keep_telemetry_witness :
  configDB (_on_message 6 32 digits_float plain_decode msg_limit_15 w0)
    !! ("switch", "amps") = Some (VInt 15)
  /\ field "amps_limit"
       (state_payload t10
          (_on_message 6 32 digits_float plain_decode msg_limit_15 w0))
     = field "amps_limit" (state_payload t10 w0).
Proof.
  split; [reflexivity|].
  apply (commands_keep_telemetry 6 32 digits_float plain_decode msg_limit_15
           t10 w0 "amps_limit").
  vm_compute. intuition discriminate.
Defined.


(** The default configuration has the module disabled. *)
Lemma polls_of_disabled_module_witness :
  run 6 32 digits_float plain_decode [EPoll t10 t10; EPoll t15 t15] w_default
  = w_default.
Proof.
  apply (polls_of_disabled_module 6 32 digits_float plain_decode
           [(t10, t10); (t15, t15)] w_default).
  right. reflexivity.
Defined.

(** Interval 5 s, last publish at 10 s, poll at 10 s. *)
Lemma poll_at_same_reading_witness :
  outbox (fst (poll t10 t12 w_published)) = outbox w_published.
Proof.
  destruct (poll_at_same_reading t10 t12 w_published) as (H & _).
  - reflexivity.
  - apply H. vm_compute. reflexivity.
Defined.


(** The shared state holds the string "auto" as overall limit. *)
Lemma discovery_thread_dies_on_bad_limit_witness :
  run_discovery_thread 6 32 w_bad_limit = with_spawned 0 w_bad_limit.
Proof.
  apply (discovery_thread_dies_on_bad_limit 6 32 w_bad_limit 0);
    reflexivity.
Defined.

(** From a fresh plugin, through a connect, a discovery run and a
    disconnect. *)
Lemma sent_only_while_connected_witness :
  sent_only_connected w0
  /\ sent_only_connected
       (run 6 32 digits_float plain_decode
          [EConnect 0; ERunDiscovery; EDisconnect 0] w0).
Proof.
  assert (H0 : sent_only_connected w0) by (intros H; discriminate H).
  split; [exact H0|].
  apply (sent_only_while_connected 6 32 digits_float plain_decode
           [EConnect 0; ERunDiscovery; EDisconnect 0] w0 H0).
Defined.

(** MIN = 6, MAX = 32, no overall limit: the number entity says 6..32. *)
Lemma number_entity_range_is_accepted_range_witness :
  exists (w' : world) (c : publish_call),
    _send_discovery 6 32 w_up = Ok w'
    /\ In c (outbox w')
    /\ field "min" (p_payload c) = Some (JInt 6)
    /\ field "max" (p_payload c) = Some (JInt 32).
Proof.
  destruct (number_entity_range_is_accepted_range 6 32 digits_float w_up 32)
    as ((w' & c & Hrun & Hin & _ & Hmin & Hmax & _) & _).
  - reflexivity.
  - reflexivity.
  - exists w', c. repeat split; assumption.
Defined.

(** Polls, a command, a refused connect and a stray thread before any
    successful connect. *)
Lemma run_before_connect_witness :
  outbox (run 6 32 digits_float plain_decode
            [EPoll t10 t10; EMessage msg_limit_15; EConnect 5;
             ERunDiscovery; EPoll t15 t15] w0) = [].
Proof.
  apply (run_before_connect 6 32 digits_float plain_decode
           [EPoll t10 t10; EMessage msg_limit_15; EConnect 5;
            ERunDiscovery; EPoll t15 t15] w0).
  - reflexivity.
  - repeat constructor; discriminate.
Defined.

(** The shared state holds the string "auto" as overall limit. *)
Lemma current_limit_command_bad_limit_witness :
  _handle_current_limit_command 6 32 digits_float "15"
    (with_state "eo_overall_limit_current" (VStr "auto"))
  = with_state "eo_overall_limit_current" (VStr "auto").
Proof.
  apply (current_limit_command_bad_limit 6 32 digits_float "15"
           (with_state "eo_overall_limit_current" (VStr "auto"))).
  reflexivity.
Defined.

End MoreWitnesses.
